(** * EVE LP store optimiser: analyzer, scoring and the two allocators

    A shallow embedding of [eve_lp_optimizer.py].

    Conventions of the embedding:
    - Python [int] is [Z]; integer floor division [//] is [Z.div], which
      rounds toward minus infinity like Python's, and raises on a zero
      divisor.
    - Python [float] is idealised as an exact rational [Q]: rounding,
      infinities and NaN are outside the model.  [int(x)] truncates toward
      zero; float [//] is the floor of the exact quotient and raises on a
      zero divisor, as does [/].
    - A computation that may raise is a value of [py A].
    - [print] calls are observability only and are left out, except where
      their argument can raise. *)

From Stdlib Require Import ZArith QArith Qround List Lia Bool String.
From Stdlib Require Import Permutation Lqa Sorted DecimalString DecimalPos DecimalZ.
Import ListNotations.

Local Open Scope Z_scope.

(** ** Python values and exceptions *)

Inductive exn : Type := ZeroDivisionError.

Inductive py (A : Type) : Type :=
| Return (a : A)
| Raise (e : exn).

Arguments Return {A} a.
Arguments Raise {A} e.

Definition bind {A B : Type} (m : py A) (k : A -> py B) : py B :=
  match m with
  | Return a => k a
  | Raise e => Raise e
  end.

Notation "x <- m ;; k" := (bind m (fun x => k))
  (at level 61, m at next level, right associativity).

Definition Qltb (x y : Q) : bool := negb (Qle_bool y x).

(** [a // b] on ints. *)
Definition int_floordiv (a b : Z) : py Z :=
  if b =? 0 then Raise ZeroDivisionError else Return (a / b).

(** [a // b] on floats: a float holding the floor of the quotient. *)
Definition float_floordiv (a b : Q) : py Q :=
  if Qeq_bool b 0 then Raise ZeroDivisionError
  else Return (inject_Z (Qfloor (a / b))).

(** [a / b] with a float operand. *)
Definition truediv (a b : Q) : py Q :=
  if Qeq_bool b 0 then Raise ZeroDivisionError else Return (a / b)%Q.

(** [int(x)] on a float: truncation toward zero. *)
Definition py_int (x : Q) : Z := Z.quot (Qnum x) (Zpos (Qden x)).

(** ** Data model *)

Record LPStoreItem : Type := {
  name : string;
  faction_type_id : Z;
  base_type_id : Z;
  base_name : string;
  lp_cost : Z;
  isk_cost : Z;
  units_per_purchase : Z;
  volume_per_unit : Q;
  category : string
}.

Definition volume_per_purchase (i : LPStoreItem) : Q :=
  (volume_per_unit i * inject_Z (units_per_purchase i))%Q.

Record MarketData : Type := {
  type_id : Z;
  price : Q;
  daily_volume : Q;
  available_volume : Z
}.

Record ItemAnalysis : Type := {
  item : LPStoreItem;
  base_market : MarketData;
  faction_market : MarketData;
  base_cost_per_purchase : Q;
  faction_revenue_per_purchase : Q;
  total_cost_per_purchase : Q;
  profit_per_purchase : Q;
  net_isk_per_lp : Q;
  daily_volume_purchases : Q;
  lp_per_m3 : Q
}.

(** ** Profitability analyzer *)

(** The market-data provider, [ESIClient.get_market_data]: a lookup that may
    have no quote for a good. *)
Definition ESIClient : Type := Z -> bool -> option MarketData.

(** One iteration of the loop of [analyze_items], given the two quotes the
    iteration fetches: [Return None] is [continue], [Return (Some a)] is
    [analyses.append(a)]. *)
Definition analyze_item (it : LPStoreItem)
    (base faction : option MarketData) : py (option ItemAnalysis) :=
  match base with
  | None => Return None
  | Some base_market =>
    match faction with
    | None => Return None
    | Some faction_market =>
      if Qle_bool (price faction_market) 0 then Return None
      else
        let base_cost := (price base_market * inject_Z (units_per_purchase it))%Q in
        let faction_revenue :=
          (price faction_market * inject_Z (units_per_purchase it))%Q in
        let total_cost := (base_cost + inject_Z (isk_cost it))%Q in
        let profit := (faction_revenue - total_cost)%Q in
        if Qle_bool profit 0 then
          (* the progress line formats profit/item.lp_cost *)
          _ <- truediv profit (inject_Z (lp_cost it)) ;;
          Return None
        else
          net <- truediv profit (inject_Z (lp_cost it)) ;;
          dvp <- truediv (daily_volume faction_market)
                         (inject_Z (units_per_purchase it)) ;;
          density <- (if Qltb 0 (volume_per_purchase it)
                      then truediv (inject_Z (lp_cost it)) (volume_per_purchase it)
                      else Return 0%Q) ;;
          Return (Some {|
            item := it;
            base_market := base_market;
            faction_market := faction_market;
            base_cost_per_purchase := base_cost;
            faction_revenue_per_purchase := faction_revenue;
            total_cost_per_purchase := total_cost;
            profit_per_purchase := profit;
            net_isk_per_lp := net;
            daily_volume_purchases := dvp;
            lp_per_m3 := density |})
    end
  end.

Fixpoint analyze_items (items : list LPStoreItem) (esi : ESIClient)
    : py (list ItemAnalysis) :=
  match items with
  | [] => Return []
  | it :: rest =>
    r <- analyze_item it (esi (base_type_id it) true)
                         (esi (faction_type_id it) false) ;;
    analyses <- analyze_items rest esi ;;
    Return (match r with Some a => a :: analyses | None => analyses end)
  end.

(** ** Scoring and filtering: [optimize_purchases] before allocation *)

(** The liquidity filter with its fallback to the unfiltered list. *)
Definition liquidity_filter (analyses : list ItemAnalysis) (min_liquidity : Q)
    : list ItemAnalysis :=
  filter (fun a => Qle_bool min_liquidity (daily_volume_purchases a)) analyses.

Definition select_viable (analyses : list ItemAnalysis) (min_liquidity : Q)
    : list ItemAnalysis :=
  match liquidity_filter analyses min_liquidity with
  | [] => analyses
  | viable_items => viable_items
  end.

Definition Qsum (l : list Q) : Q := fold_left Qplus l 0%Q.

Definition avg_lp_per_m3 (viable_items : list ItemAnalysis) : Q :=
  match viable_items with
  | [] => 1%Q
  | _ => (Qsum (map lp_per_m3 viable_items)
          / inject_Z (Z.of_nat (List.length viable_items)))%Q
  end.

(** The profit-per-LP value after the liquidity penalty: the first half of
    [sort_key]. *)
Definition liquidity_penalized (max_days_to_sell : Q) (a : ItemAnalysis) : Q :=
  if Qltb 0 (daily_volume_purchases a) then
    let days_to_sell_one := (1 / daily_volume_purchases a)%Q in
    if Qltb max_days_to_sell days_to_sell_one
    then (net_isk_per_lp a * (max_days_to_sell / days_to_sell_one))%Q
    else net_isk_per_lp a
  else net_isk_per_lp a.

(** [sort_key]; [float_pow] stands for the float operator [**], which the
    rationals do not have. *)
Definition sort_key (float_pow : Q -> Q -> Q)
    (max_days_to_sell lp_density_weight avg : Q) (a : ItemAnalysis) : Q :=
  let base_value := liquidity_penalized max_days_to_sell a in
  if Qltb 0 lp_density_weight && Qltb 0 avg then
    let density_factor := float_pow (lp_per_m3 a / avg)%Q lp_density_weight in
    (base_value * density_factor)%Q
  else base_value.

(** [list.sort(key=..., reverse=True)]: a stable sort by descending key,
    elements of equal key keeping their order. *)
Fixpoint insert_desc {A : Type} (key : A -> Q) (x : A) (l : list A) : list A :=
  match l with
  | [] => [x]
  | y :: ys =>
    if Qltb (key x) (key y) then y :: insert_desc key x ys else x :: y :: ys
  end.

Fixpoint sort_desc {A : Type} (key : A -> Q) (l : list A) : list A :=
  match l with
  | [] => []
  | x :: xs => insert_desc key x (sort_desc key xs)
  end.

(** The candidate list handed to the allocators. *)
Definition ranked_candidates (float_pow : Q -> Q -> Q)
    (analyses : list ItemAnalysis)
    (min_liquidity max_days_to_sell lp_density_weight : Q)
    : list ItemAnalysis :=
  let viable_items := select_viable analyses min_liquidity in
  let avg := avg_lp_per_m3 viable_items in
  sort_desc (sort_key float_pow max_days_to_sell lp_density_weight avg)
            viable_items.

(** ** Greedy allocation *)

Definition purchase : Type := (ItemAnalysis * Z)%type.

Definition budget_exhausted (remaining_lp : Z) (remaining_cargo : Q) : bool :=
  (remaining_lp <=? 0) || Qle_bool remaining_cargo 0.

(** The quantity the greedy loop computes for one candidate. *)
Definition greedy_quantity (analysis : ItemAnalysis)
    (remaining_lp : Z) (remaining_cargo max_days_to_sell : Q) : py Z :=
  max_by_lp <- int_floordiv remaining_lp (lp_cost (item analysis)) ;;
  by_cargo <- float_floordiv remaining_cargo
                             (volume_per_purchase (item analysis)) ;;
  let max_by_cargo := py_int by_cargo in
  let max_by_volume :=
    if Qltb 0 (daily_volume_purchases analysis)
    then py_int (daily_volume_purchases analysis * max_days_to_sell)%Q
    else 1 in
  Return (Z.min (Z.min max_by_lp max_by_cargo) (Z.max 1 max_by_volume)).

Fixpoint _greedy_allocation (viable_items : list ItemAnalysis)
    (remaining_lp : Z) (remaining_cargo max_days_to_sell : Q)
    : py (list purchase) :=
  match viable_items with
  | [] => Return []
  | analysis :: rest =>
    if budget_exhausted remaining_lp remaining_cargo then Return []
    else
      quantity <- greedy_quantity analysis remaining_lp remaining_cargo
                                  max_days_to_sell ;;
      if 0 <? quantity then
        purchases <- _greedy_allocation rest
          (remaining_lp - quantity * lp_cost (item analysis))
          (remaining_cargo
           - inject_Z quantity * volume_per_purchase (item analysis))%Q
          max_days_to_sell ;;
        Return ((analysis, quantity) :: purchases)
      else _greedy_allocation rest remaining_lp remaining_cargo max_days_to_sell
  end.

(** ** Diversified allocation *)

(** The running state of the round loop besides the allocation list. *)
Record budgets : Type := {
  remaining_lp : Z;
  remaining_cargo : Q;
  allocation_made : bool
}.

(** The body of the [for] loop for one [alloc_entry], after the budget
    check. *)
Definition allocate_entry (max_days_to_sell batch_size_days : Q)
    (alloc_entry : purchase) (st : budgets) : py (purchase * budgets) :=
  let '(analysis, current_qty) := alloc_entry in
  let '(batch_purchases, remaining_for_item) :=
    if Qltb 0 (daily_volume_purchases analysis) then
      let batch :=
        Z.max 1 (py_int (daily_volume_purchases analysis * batch_size_days)%Q) in
      let max_total :=
        py_int (daily_volume_purchases analysis * max_days_to_sell)%Q in
      let remaining_for_item := Z.max 0 (max_total - current_qty) in
      (Z.min batch remaining_for_item, remaining_for_item)
    else (1, 1 - current_qty) in
  if remaining_for_item <=? 0 then Return (alloc_entry, st)
  else
    max_by_lp <- int_floordiv (remaining_lp st) (lp_cost (item analysis)) ;;
    by_cargo <- float_floordiv (remaining_cargo st)
                               (volume_per_purchase (item analysis)) ;;
    let max_by_cargo := py_int by_cargo in
    let quantity := Z.min (Z.min batch_purchases max_by_lp) max_by_cargo in
    if 0 <? quantity then
      Return ((analysis, current_qty + quantity),
              {| remaining_lp :=
                   remaining_lp st - quantity * lp_cost (item analysis);
                 remaining_cargo :=
                   (remaining_cargo st
                    - inject_Z quantity * volume_per_purchase (item analysis))%Q;
                 allocation_made := true |})
    else Return (alloc_entry, st).

(** One pass of the [for] loop over the allocation list; [break] leaves the
    rest of the list as it is. *)
Fixpoint allocation_round (max_days_to_sell batch_size_days : Q)
    (allocations : list purchase) (st : budgets)
    : py (list purchase * budgets) :=
  match allocations with
  | [] => Return ([], st)
  | alloc_entry :: rest =>
    if budget_exhausted (remaining_lp st) (remaining_cargo st)
    then Return (allocations, st)
    else
      r <- allocate_entry max_days_to_sell batch_size_days alloc_entry st ;;
      let '(alloc_entry', st') := r in
      r' <- allocation_round max_days_to_sell batch_size_days rest st' ;;
      let '(rest', st'') := r' in
      Return (alloc_entry' :: rest', st'')
  end.

Definition continue_rounds (st : budgets) : bool :=
  allocation_made st && (0 <? remaining_lp st) && Qltb 0 (remaining_cargo st).

(** The [while] loop, one unit of fuel per round; [None] is out of fuel. *)
Fixpoint allocation_rounds (fuel : nat) (max_days_to_sell batch_size_days : Q)
    (allocations : list purchase) (st : budgets)
    : option (py (list purchase * budgets)) :=
  if continue_rounds st then
    match fuel with
    | O => None
    | S fuel' =>
      match allocation_round max_days_to_sell batch_size_days allocations
              {| remaining_lp := remaining_lp st;
                 remaining_cargo := remaining_cargo st;
                 allocation_made := false |} with
      | Raise e => Some (Raise e)
      | Return (allocations', st') =>
        allocation_rounds fuel' max_days_to_sell batch_size_days allocations' st'
      end
    end
  else Some (Return (allocations, st)).

Definition initial_allocations (viable_items : list ItemAnalysis)
    : list purchase :=
  map (fun analysis => (analysis, 0)) viable_items.

Definition nonzero_allocations (allocations : list purchase) : list purchase :=
  filter (fun p => 0 <? snd p) allocations.

Definition _diversified_allocation (fuel : nat)
    (viable_items : list ItemAnalysis) (available_lp : Z)
    (cargo_capacity max_days_to_sell batch_size_days : Q)
    : option (py (list purchase)) :=
  match allocation_rounds fuel max_days_to_sell batch_size_days
          (initial_allocations viable_items)
          {| remaining_lp := available_lp;
             remaining_cargo := cargo_capacity;
             allocation_made := true |} with
  | None => None
  | Some (Raise e) => Some (Raise e)
  | Some (Return (allocations, _)) =>
    Some (Return (nonzero_allocations allocations))
  end.

(** Fuel that always suffices: every round but the last lowers the integer
    remaining LP. *)
Definition enough_fuel (available_lp : Z) : nat := Z.to_nat available_lp.

(** ** [optimize_purchases] *)

Definition optimize_purchases (float_pow : Q -> Q -> Q) (fuel : nat)
    (analyses : list ItemAnalysis) (available_lp : Z)
    (cargo_capacity min_liquidity max_days_to_sell : Q) (diversify : bool)
    (batch_size_days lp_density_weight : Q) : option (py (list purchase)) :=
  let viable_items :=
    ranked_candidates float_pow analyses min_liquidity max_days_to_sell
                      lp_density_weight in
  if negb diversify then
    Some (_greedy_allocation viable_items available_lp cargo_capacity
                             max_days_to_sell)
  else
    _diversified_allocation fuel viable_items available_lp cargo_capacity
                            max_days_to_sell batch_size_days.

(** ** Totals of a plan, as [generate_report] accumulates them *)

Definition total_lp_used (purchases : list purchase) : Z :=
  fold_right (fun p acc => snd p * lp_cost (item (fst p)) + acc) 0 purchases.

Definition total_volume (purchases : list purchase) : Q :=
  fold_right
    (fun p acc => (inject_Z (snd p) * volume_per_purchase (item (fst p)) + acc)%Q)
    0%Q purchases.

(** ** Sample market data and the catalog *)

Local Open Scope string_scope.

Definition SAMPLE_BASE_PRICES : list (Z * (Q * Q)) :=
  [ (185, (8, 50000000)%Q);
    (183, (7, 40000000)%Q);
    (184, (8, 45000000)%Q);
    (182, (7, 30000000)%Q);
    (179, (5, 20000000)%Q);
    (180, (6, 25000000)%Q);
    (178, (4, 15000000)%Q);
    (181, (6, 18000000)%Q);
    (193, (40, 20000000)%Q);
    (191, (35, 18000000)%Q);
    (192, (38, 22000000)%Q);
    (190, (32, 15000000)%Q);
    (187, (25, 10000000)%Q);
    (188, (28, 12000000)%Q);
    (186, (20, 8000000)%Q);
    (189, (30, 9000000)%Q);
    (201, (100, 8000000)%Q);
    (199, (90, 7000000)%Q);
    (200, (95, 9000000)%Q);
    (198, (80, 6000000)%Q);
    (195, (60, 4000000)%Q);
    (196, (70, 5000000)%Q);
    (194, (50, 3000000)%Q);
    (197, (75, 3500000)%Q);
    (2486, (18000, 50000)%Q);
    (15510, (75000, 30000)%Q) ].

Definition SAMPLE_FACTION_PRICES : list (Z * (Q * Q)) :=
  [ (21898, (568, 377000)%Q);
    (21906, (616, 320000)%Q);
    (21924, (482, 404000)%Q);
    (21939, (780, 247000)%Q);
    (21914, (792, 156000)%Q);
    (21931, (651, 284000)%Q);
    (28328, (399, 98000)%Q);
    (28336, (491, 111000)%Q);
    (21896, (949, 164000)%Q);
    (21904, (920, 161000)%Q);
    (21922, (867, 277000)%Q);
    (21937, (776, 256000)%Q);
    (21912, (720, 74000)%Q);
    (21928, (969, 109000)%Q);
    (28326, (609, 116000)%Q);
    (28334, (940, 38000)%Q);
    (21894, (1233, 161000)%Q);
    (21902, (1194, 92000)%Q);
    (21918, (1295, 74000)%Q);
    (21935, (1074, 129000)%Q);
    (21910, (910, 120000)%Q);
    (21926, (1186, 87000)%Q);
    (28324, (668, 51000)%Q);
    (28332, (1108, 45000)%Q);
    (31888, (1182000, 150)%Q);
    (31890, (1715000, 120)%Q) ].

Definition republic_fleet_emp_s : LPStoreItem :=
  Build_LPStoreItem "Republic Fleet EMP S" 21898 185 "EMP S" 1200 1200000 5000 (1 # 400) "ammo_s".

Definition LP_STORE_ITEMS : list LPStoreItem :=
  [ republic_fleet_emp_s;
    Build_LPStoreItem "Republic Fleet Fusion S" 21906 183 "Fusion S" 1200 1200000 5000 (1 # 400) "ammo_s";
    Build_LPStoreItem "Republic Fleet Phased Plasma S" 21924 184 "Phased Plasma S" 1200 1200000 5000 (1 # 400) "ammo_s";
    Build_LPStoreItem "Republic Fleet Titanium Sabot S" 21939 182 "Titanium Sabot S" 1200 1200000 5000 (1 # 400) "ammo_s";
    Build_LPStoreItem "Republic Fleet Nuclear S" 21914 179 "Nuclear S" 1200 1200000 5000 (1 # 400) "ammo_s";
    Build_LPStoreItem "Republic Fleet Proton S" 21931 180 "Proton S" 1200 1200000 5000 (1 # 400) "ammo_s";
    Build_LPStoreItem "Republic Fleet Carbonized Lead S" 28328 178 "Carbonized Lead S" 1200 1200000 5000 (1 # 400) "ammo_s";
    Build_LPStoreItem "Republic Fleet Depleted Uranium S" 28336 181 "Depleted Uranium S" 1200 1200000 5000 (1 # 400) "ammo_s";
    Build_LPStoreItem "Republic Fleet EMP M" 21896 193 "EMP M" 1600 1600000 5000 (1 # 80) "ammo_m";
    Build_LPStoreItem "Republic Fleet Fusion M" 21904 191 "Fusion M" 1600 1600000 5000 (1 # 80) "ammo_m";
    Build_LPStoreItem "Republic Fleet Phased Plasma M" 21922 192 "Phased Plasma M" 1600 1600000 5000 (1 # 80) "ammo_m";
    Build_LPStoreItem "Republic Fleet Titanium Sabot M" 21937 190 "Titanium Sabot M" 1600 1600000 5000 (1 # 80) "ammo_m";
    Build_LPStoreItem "Republic Fleet Nuclear M" 21912 187 "Nuclear M" 1600 1600000 5000 (1 # 80) "ammo_m";
    Build_LPStoreItem "Republic Fleet Proton M" 21928 188 "Proton M" 1600 1600000 5000 (1 # 80) "ammo_m";
    Build_LPStoreItem "Republic Fleet Carbonized Lead M" 28326 186 "Carbonized Lead M" 1600 1600000 5000 (1 # 80) "ammo_m";
    Build_LPStoreItem "Republic Fleet Depleted Uranium M" 28334 189 "Depleted Uranium M" 1600 1600000 5000 (1 # 80) "ammo_m";
    Build_LPStoreItem "Republic Fleet EMP L" 21894 201 "EMP L" 2400 2400000 5000 (1 # 40) "ammo_l";
    Build_LPStoreItem "Republic Fleet Fusion L" 21902 199 "Fusion L" 2400 2400000 5000 (1 # 40) "ammo_l";
    Build_LPStoreItem "Republic Fleet Phased Plasma L" 21918 200 "Phased Plasma L" 2400 2400000 5000 (1 # 40) "ammo_l";
    Build_LPStoreItem "Republic Fleet Titanium Sabot L" 21935 198 "Titanium Sabot L" 2400 2400000 5000 (1 # 40) "ammo_l";
    Build_LPStoreItem "Republic Fleet Nuclear L" 21910 195 "Nuclear L" 2400 2400000 5000 (1 # 40) "ammo_l";
    Build_LPStoreItem "Republic Fleet Proton L" 21926 196 "Proton L" 2400 2400000 5000 (1 # 40) "ammo_l";
    Build_LPStoreItem "Republic Fleet Carbonized Lead L" 28324 194 "Carbonized Lead L" 2400 2400000 5000 (1 # 40) "ammo_l";
    Build_LPStoreItem "Republic Fleet Depleted Uranium L" 28332 197 "Depleted Uranium L" 2400 2400000 5000 (1 # 40) "ammo_l";
    Build_LPStoreItem "Republic Fleet Warrior" 31888 2486 "Warrior I" 3000 3000000 5 5 "drone_light";
    Build_LPStoreItem "Republic Fleet Valkyrie" 31890 15510 "Valkyrie I" 4000 4000000 5 10 "drone_medium" ].

Local Close Scope string_scope.

Fixpoint sample_lookup (type_id : Z) (sample_dict : list (Z * (Q * Q)))
    : option (Q * Q) :=
  match sample_dict with
  | [] => None
  | (k, v) :: rest => if k =? type_id then Some v else sample_lookup type_id rest
  end.

(** [ESIClient(use_sample=True).get_market_data]. *)
Definition sample_get_market_data : ESIClient :=
  fun type_id is_base_item =>
    let sample_dict :=
      if is_base_item then SAMPLE_BASE_PRICES else SAMPLE_FACTION_PRICES in
    match sample_lookup type_id sample_dict with
    | Some (price, volume) =>
      Some {| type_id := type_id;
              price := price;
              daily_volume := volume;
              available_volume := py_int (volume * 10)%Q |}
    | None => None
    end.

(** ** Predicates used by the statements *)



(** The per-candidate cap on the cumulative quantity that
    [_diversified_allocation] enforces through [remaining_for_item]. *)
Definition liquidity_cap (max_days_to_sell : Q) (a : ItemAnalysis) : Z :=
  if Qltb 0 (daily_volume_purchases a)
  then Z.max 0 (py_int (daily_volume_purchases a * max_days_to_sell)%Q)
  else 1.

Definition within_cap (max_days_to_sell : Q) (p : purchase) : Prop :=
  snd p <= liquidity_cap max_days_to_sell (fst p).



(** ** The greedy strategy as the specification words it *)




(** ** A two-candidate scenario: equal profit, budget for one lot of each *)

Local Open Scope string_scope.

Definition twin_catalog : list LPStoreItem :=
  [ Build_LPStoreItem "Twin A" 9001 8001 "Base A" 3000 3000000 5 5 "drone_light";
    Build_LPStoreItem "Twin B" 9002 8002 "Base B" 3000 3000000 5 5 "drone_light" ].

Local Close Scope string_scope.

Definition twin_market : ESIClient :=
  fun type_id is_base_item =>
    if is_base_item then
      if (type_id =? 8001) || (type_id =? 8002)
      then Some {| type_id := type_id; price := 18000;
                   daily_volume := 50000; available_volume := 500000 |}
      else None
    else
      if (type_id =? 9001) || (type_id =? 9002)
      then Some {| type_id := type_id; price := 1182000;
                   daily_volume := 5 # 2; available_volume := 25 |}
      else None.

Definition twin_analyses : list ItemAnalysis :=
  match analyze_items twin_catalog twin_market with
  | Return analyses => analyses
  | Raise _ => []
  end.

(** ** A catalog entry without cargo volume

    The first catalog entry with [volume_per_unit] set to 0: the analyzer
    accepts it (its LP-density is then 0) and hands it to the allocators. *)

Local Open Scope string_scope.

Definition weightless_emp_s : LPStoreItem :=
  Build_LPStoreItem "Republic Fleet EMP S" 21898 185 "EMP S" 1200 1200000
    5000 0 "ammo_s".

Local Close Scope string_scope.

Definition weightless_analyses : list ItemAnalysis :=
  match analyze_items [weightless_emp_s] sample_get_market_data with
  | Return analyses => analyses
  | Raise _ => []
  end.

(** ** Points of the round loop

    The states [_diversified_allocation] passes through: the state before
    the first round, the state at the top of a new round, and the state
    after the loop body has run on one entry while no budget is exhausted. *)


(** ** The live market-data client

    The HTTP layer is a pair of endpoints that may fail; an order row keeps
    the three keys the client reads ([system_id] through [dict.get], so it
    may be missing), a history row the one key it reads. *)

Definition THE_FORGE_REGION_ID : Z := 10000002.
Definition JITA_SYSTEM_ID : Z := 30000142.

Module Order.
Record t : Type := {
  system_id : option Z;
  price : Q;
  volume_remain : Z
}.
End Order.

Module History.
Record t : Type := { volume : Z }.
End History.

Record Client : Type := {
  use_sample : bool;
  (** [GET /markets/{region}/orders/?type_id=..&order_type=sell&page=..] *)
  orders_endpoint : Z -> Z -> Z -> option (list Order.t);
  (** [GET /markets/{region}/history/?type_id=..] *)
  history_endpoint : Z -> Z -> option (list History.t)
}.

(** [_request] on the orders endpoint: [None] in sample mode or on a
    transport failure. *)
Definition request_orders (c : Client) (region_id type_id page : Z)
    : option (list Order.t) :=
  if use_sample c then None else orders_endpoint c region_id type_id page.

Definition request_history (c : Client) (region_id type_id : Z)
    : option (list History.t) :=
  if use_sample c then None else history_endpoint c region_id type_id.

(** The [while True] loop of [get_sell_orders], one unit of fuel per page. *)
Fixpoint fetch_order_pages (fuel : nat) (c : Client) (region_id type_id : Z)
    (page : Z) (orders : list Order.t) : option (list Order.t) :=
  match fuel with
  | O => None
  | S fuel' =>
    match request_orders c region_id type_id page with
    | None => Some orders
    | Some [] => Some orders
    | Some data =>
      let orders' := orders ++ data in
      if Z.of_nat (List.length data) <? 1000 then Some orders'
      else fetch_order_pages fuel' c region_id type_id (page + 1) orders'
    end
  end.

Definition is_jita (o : Order.t) : bool :=
  match Order.system_id o with
  | Some s => s =? JITA_SYSTEM_ID
  | None => false
  end.

(** The orders kept by [get_sell_orders]: those in Jita, or all of them when
    none is in Jita. *)
Definition jita_or_all (orders : list Order.t) : list Order.t :=
  match filter is_jita orders with
  | [] => orders
  | jita_orders => jita_orders
  end.

(** [sorted(..., key=...)]: a stable sort by ascending key. *)
Fixpoint insert_asc {A : Type} (key : A -> Q) (x : A) (l : list A) : list A :=
  match l with
  | [] => [x]
  | y :: ys =>
    if Qltb (key y) (key x) then y :: insert_asc key x ys else x :: y :: ys
  end.

Fixpoint sort_asc {A : Type} (key : A -> Q) (l : list A) : list A :=
  match l with
  | [] => []
  | x :: xs => insert_asc key x (sort_asc key xs)
  end.

Definition get_sell_orders (fuel : nat) (c : Client) (region_id type_id : Z)
    : option (list Order.t) :=
  if use_sample c then Some []
  else
    match fetch_order_pages fuel c region_id type_id 1 [] with
    | None => None
    | Some orders => Some (sort_asc Order.price (jita_or_all orders))
    end.

Definition get_market_history (c : Client) (region_id type_id : Z)
    : list History.t :=
  if use_sample c then []
  else
    match request_history c region_id type_id with
    | None => []
    | Some data => data
    end.

Definition Zsum (l : list Z) : Z := fold_left Z.add l 0.

(** [history[-30:] if len(history) >= 30 else history] *)
Definition recent_history (history : list History.t) : list History.t :=
  if 30 <=? Z.of_nat (List.length history)
  then skipn (List.length history - 30) history
  else history.

Definition daily_volume_of (history : list History.t) : Q :=
  match history with
  | [] => 0%Q
  | _ =>
    let recent := recent_history history in
    (inject_Z (Zsum (map History.volume recent))
     / inject_Z (Z.of_nat (List.length recent)))%Q
  end.

(** The live branch of [get_market_data], from the sorted orders and the
    history. *)
Definition market_data_of (type_id : Z) (orders : list Order.t)
    (history : list History.t) : option MarketData :=
  match orders with
  | [] => None
  | first :: _ =>
    let min_price := Order.price first in
    let price_threshold := (min_price * (105 # 100))%Q in
    let available_volume :=
      Zsum (map Order.volume_remain
              (filter (fun o => Qle_bool (Order.price o) price_threshold)
                      orders)) in
    Some {| type_id := type_id;
            price := min_price;
            daily_volume := daily_volume_of history;
            available_volume := available_volume |}
  end.

(** [ESIClient.get_market_data]; the outer [None] is out of fuel. *)
Definition get_market_data (fuel : nat) (c : Client) (type_id : Z)
    (is_base_item : bool) : option (option MarketData) :=
  if use_sample c then Some (sample_get_market_data type_id is_base_item)
  else
    match get_sell_orders fuel c THE_FORGE_REGION_ID type_id with
    | None => None
    | Some [] => Some None
    | Some orders =>
      Some (market_data_of type_id orders
              (get_market_history c THE_FORGE_REGION_ID type_id))
    end.

(** ** The report and the multi-buy text

    Of [generate_report] the model keeps the numbers it accumulates and
    prints, and the two divisions that can raise; the layout of the text is
    left out. *)

Module Report.
Record totals : Type := {
  total_lp_used : Z;
  total_base_cost : Q;
  total_isk_cost : Z;
  total_revenue : Q;
  total_volume : Q
}.

Definition zero : totals :=
  {| total_lp_used := 0; total_base_cost := 0; total_isk_cost := 0;
     total_revenue := 0; total_volume := 0 |}.

(** The body of the loop over [purchases]. *)
Definition add_purchase (t : totals) (p : purchase) : totals :=
  let '(analysis, quantity) := p in
  let it := item analysis in
  {| total_lp_used := total_lp_used t + quantity * lp_cost it;
     total_base_cost :=
       (total_base_cost t
        + inject_Z quantity * base_cost_per_purchase analysis)%Q;
     total_isk_cost := total_isk_cost t + quantity * isk_cost it;
     total_revenue :=
       (total_revenue t
        + inject_Z quantity * faction_revenue_per_purchase analysis)%Q;
     total_volume :=
       (total_volume t + inject_Z quantity * volume_per_purchase it)%Q |}.

Definition accumulate (purchases : list purchase) : totals :=
  fold_left add_purchase purchases zero.

Record summary : Type := {
  sums : totals;
  lp_used_percent : Q;
  remaining : Z;
  total_investment : Q;
  expected_profit : Q;
  effective_isk_lp : option Q;
  volume_percent : Q
}.
End Report.

Definition generate_report (purchases : list purchase) (available_lp : Z)
    (cargo_capacity : Q) : py Report.summary :=
  let t := Report.accumulate purchases in
  let profit :=
    (Report.total_revenue t - Report.total_base_cost t
     - inject_Z (Report.total_isk_cost t))%Q in
  lp_ratio <- truediv (inject_Z (Report.total_lp_used t))
                      (inject_Z available_lp) ;;
  effective <- (if 0 <? Report.total_lp_used t
                then x <- truediv profit (inject_Z (Report.total_lp_used t)) ;;
                     Return (Some x)
                else Return None) ;;
  volume_ratio <- truediv (Report.total_volume t) cargo_capacity ;;
  Return {| Report.sums := t;
            Report.lp_used_percent := (lp_ratio * 100)%Q;
            Report.remaining := available_lp - Report.total_lp_used t;
            Report.total_investment :=
              (Report.total_base_cost t
               + inject_Z (Report.total_isk_cost t))%Q;
            Report.expected_profit := profit;
            Report.effective_isk_lp := effective;
            Report.volume_percent := (volume_ratio * 100)%Q |}.

(** [f"{n}"] on an int. *)
Definition str_of_int (n : Z) : string :=
  NilZero.string_of_int (Z.to_int n).

Definition newline : string := String (Ascii.ascii_of_nat 10) EmptyString.

Local Open Scope string_scope.

Definition multibuy_line (p : purchase) : string :=
  let '(analysis, quantity) := p in
  let total_units := quantity * units_per_purchase (item analysis) in
  base_name (item analysis) ++ " x" ++ str_of_int total_units.

Definition generate_multibuy (purchases : list purchase) : string :=
  String.concat newline (map multibuy_line purchases).

(** ** [main] *)

Definition valid_categories : list string :=
  ["ammo_s"; "ammo_m"; "ammo_l"; "drone_light"; "drone_medium"].

Local Close Scope string_scope.

Definition str_in (s : string) (l : list string) : bool :=
  existsb (String.eqb s) l.

(** What a run ends with: [typer.Exit(code)], or the plan with its report
    and multi-buy text, which [main] prints and writes to the output
    files. *)
Inductive main_outcome : Type :=
| Exit (code : Z)
| Completed (purchases : list purchase) (report : Report.summary)
            (multibuy : string).

(** [main], with the client already built; a missing or empty [categories]
    option selects the whole catalog. *)
Definition main (float_pow : Q -> Q -> Q) (fuel : nat) (esi : ESIClient)
    (lp : Z) (cargo max_days min_liquidity : Q)
    (categories : option (list string)) (no_diversify : bool)
    (batch_days lp_density : Q) : option (py main_outcome) :=
  let chosen := match categories with Some cs => cs | None => [] end in
  let invalid := filter (fun c => negb (str_in c valid_categories)) chosen in
  match invalid with
  | _ :: _ => Some (Return (Exit 1))
  | [] =>
    let items :=
      match chosen with
      | [] => LP_STORE_ITEMS
      | _ => filter (fun i => str_in (category i) chosen) LP_STORE_ITEMS
      end in
    match analyze_items items esi with
    | Raise e => Some (Raise e)
    | Return [] => Some (Return (Exit 1))
    | Return analyses =>
      match optimize_purchases float_pow fuel analyses lp cargo min_liquidity
              max_days (negb no_diversify) batch_days lp_density with
      | None => None
      | Some (Raise e) => Some (Raise e)
      | Some (Return []) => Some (Return (Exit 1))
      | Some (Return purchases) =>
        match generate_report purchases lp cargo with
        | Raise e => Some (Raise e)
        | Return report =>
          Some (Return (Completed purchases report
                          (generate_multibuy purchases)))
        end
      end
    end
  end.

(** ** Order-preserving selections *)

(** [subseq l1 l2]: [l1] is [l2] with some elements left out. *)
Inductive subseq {A : Type} : list A -> list A -> Prop :=
| subseq_nil : subseq [] []
| subseq_skip (x : A) (l1 l2 : list A) : subseq l1 l2 -> subseq l1 (x :: l2)
| subseq_keep (x : A) (l1 l2 : list A) :
    subseq l1 l2 -> subseq (x :: l1) (x :: l2).

(** ** A page that ends the pagination, and a small live client *)


Definition rows_of (resp : option (list Order.t)) : list Order.t :=
  match resp with
  | None => []
  | Some data => data
  end.

(** Four sell orders on one page, two of them in Jita, and two days of
    history. *)
Definition demo_orders : list Order.t :=
  [ {| Order.system_id := Some JITA_SYSTEM_ID; Order.price := 9;
       Order.volume_remain := 100 |};
    {| Order.system_id := Some 30002187; Order.price := 7;
       Order.volume_remain := 50 |};
    {| Order.system_id := Some JITA_SYSTEM_ID; Order.price := 8;
       Order.volume_remain := 40 |};
    {| Order.system_id := None; Order.price := 6;
       Order.volume_remain := 10 |} ].

Definition demo_client : Client :=
  {| use_sample := false;
     orders_endpoint := fun region_id _ page =>
       if (region_id =? THE_FORGE_REGION_ID) && (page =? 1)
       then Some demo_orders else None;
     history_endpoint := fun _ _ =>
       Some [ {| History.volume := 10 |}; {| History.volume := 20 |} ] |}.

(** ** The catalog entries a run analyses *)

Definition chosen_categories (categories : option (list string))
    : list string :=
  match categories with
  | Some cs => cs
  | None => []
  end.

(** [items] in [main]: the whole catalog, or its entries in the requested
    categories. *)
Definition catalog_for (categories : option (list string))
    : list LPStoreItem :=
  match chosen_categories categories with
  | [] => LP_STORE_ITEMS
  | cs => filter (fun i => str_in (category i) cs) LP_STORE_ITEMS
  end.

(** ** Sums over a plan *)



(** ** Budgets that cover the remaining demand *)



(** * Properties *)

(** ** Arithmetic of the embedding *)

Lemma Qltb_true_iff (x y : Q) : Qltb x y = true <-> (x < y)%Q.
Proof.
  unfold Qltb. rewrite negb_true_iff. split; intro H.
  - apply Qnot_le_lt. intro Hle. apply Qle_bool_iff in Hle. congruence.
  - destruct (Qle_bool y x) eqn:E; [|reflexivity].
    apply Qle_bool_iff in E. exfalso. exact (Qlt_not_le _ _ H E).
Qed.

Lemma Qltb_false_iff (x y : Q) : Qltb x y = false <-> (y <= x)%Q.
Proof.
  unfold Qltb. rewrite negb_false_iff. apply Qle_bool_iff.
Qed.

Lemma Qle_bool_false_iff (x y : Q) : Qle_bool x y = false <-> (y < x)%Q.
Proof.
  rewrite <- Qltb_true_iff. unfold Qltb. rewrite negb_true_iff. reflexivity.
Qed.

Lemma Qeq_bool_false_iff (x y : Q) : Qeq_bool x y = false <-> ~ (x == y)%Q.
Proof.
  split; intro H.
  - intro E. apply Qeq_bool_iff in E. congruence.
  - destruct (Qeq_bool x y) eqn:E; [|reflexivity].
    apply Qeq_bool_iff in E. contradiction.
Qed.

Lemma inject_Z_nonzero (n : Z) : n <> 0 -> Qeq_bool (inject_Z n) 0 = false.
Proof.
  intro Hn. apply Qeq_bool_false_iff. intro E.
  apply Hn. unfold Qeq in E. simpl in E. lia.
Qed.

Lemma inject_Z_pos (n : Z) : 0 < n -> (0 < inject_Z n)%Q.
Proof. intro H. unfold Qlt. simpl. lia. Qed.

Lemma py_int_inject_Z (z : Z) : py_int (inject_Z z) = z.
Proof. unfold py_int. simpl. apply Z.quot_1_r. Qed.





Lemma truediv_inject_Z (x : Q) (n : Z) :
  n <> 0 -> truediv x (inject_Z n) = Return (x / inject_Z n)%Q.
Proof. intro H. unfold truediv. rewrite inject_Z_nonzero by assumption. reflexivity. Qed.


(** ** The analyzer *)





Example sample_catalog_all_profitable :
  exists analyses,
    analyze_items LP_STORE_ITEMS sample_get_market_data = Return analyses
    /\ List.length analyses = 26%nat.
Proof. eexists. split; [vm_compute; reflexivity | reflexivity]. Qed.





(** ** Scoring and filtering *)



Lemma insert_desc_perm {A : Type} (key : A -> Q) (x : A) (l : list A) :
  Permutation (insert_desc key x l) (x :: l).
Proof.
  induction l as [|y ys IH]; simpl; [apply Permutation_refl|].
  destruct (Qltb (key x) (key y)).
  - eapply Permutation_trans; [apply perm_skip, IH | apply perm_swap].
  - apply Permutation_refl.
Qed.

Lemma sort_desc_perm {A : Type} (key : A -> Q) (l : list A) :
  Permutation (sort_desc key l) l.
Proof.
  induction l as [|x xs IH]; simpl; [apply perm_nil|].
  eapply Permutation_trans; [apply insert_desc_perm | apply perm_skip, IH].
Qed.



Lemma filter_all_false {A : Type} (f : A -> bool) (l : list A) :
  (forall x, In x l -> f x = false) -> filter f l = [].
Proof.
  induction l as [|x xs IH]; intro H; simpl; [reflexivity|].
  rewrite (H x (or_introl eq_refl)). apply IH.
  intros y Hy. apply H. right. exact Hy.
Qed.

Lemma select_viable_nonempty (analyses : list ItemAnalysis) (min_liquidity : Q) :
  analyses <> [] -> select_viable analyses min_liquidity <> [].
Proof.
  intro Hne. unfold select_viable.
  destruct (liquidity_filter analyses min_liquidity); [exact Hne | discriminate].
Qed.

(** C8: for a non-empty analysis list the candidate set after the liquidity
    filter is never empty, and when the threshold is strictly above every
    candidate's daily-lot-absorption the filter removes everything and the
    candidates used for scoring and allocation are the full unfiltered
    list (the ranked list is a reordering of it). *)
Theorem liquidity_filter_fallback (analyses : list ItemAnalysis)
    (min_liquidity : Q) :
  analyses <> [] ->
  select_viable analyses min_liquidity <> []
  /\ ((forall a, In a analyses ->
         (daily_volume_purchases a < min_liquidity)%Q) ->
      liquidity_filter analyses min_liquidity = []
      /\ select_viable analyses min_liquidity = analyses
      /\ forall float_pow max_days_to_sell lp_density_weight,
           Permutation
             (ranked_candidates float_pow analyses min_liquidity
                max_days_to_sell lp_density_weight)
             analyses).
Proof.
  intro Hne. split; [apply select_viable_nonempty, Hne|].
  intro Hall.
  assert (Hf : liquidity_filter analyses min_liquidity = []).
  { apply filter_all_false. intros a Ha.
    apply Qle_bool_false_iff, Hall, Ha. }
  assert (Hs : select_viable analyses min_liquidity = analyses).
  { unfold select_viable. rewrite Hf. reflexivity. }
  repeat split; try assumption.
  intros float_pow mds w. unfold ranked_candidates. cbv zeta.
  rewrite Hs. apply sort_desc_perm.
Qed.

Lemma liquidity_filter_fallback_witness :
  select_viable twin_analyses 1 = twin_analyses.
Proof.
  assert (Hne : twin_analyses <> []) by (vm_compute; discriminate).
  assert (Hall : forall a, In a twin_analyses ->
                   (daily_volume_purchases a < 1)%Q).
  { intros a Ha. vm_compute in Ha.
    destruct Ha as [<- | [<- | []]]; vm_compute; reflexivity. }
  exact (proj1 (proj2 (proj2 (liquidity_filter_fallback twin_analyses 1 Hne)
                         Hall))).
Defined.

(** ** The two resource bounds *)

Lemma int_floordiv_bound (lp c m q : Z) :
  0 < lp -> int_floordiv lp c = Return m -> 0 < q -> q <= m ->
  0 < c /\ q * c <= lp.
Proof.
  unfold int_floordiv. intros Hlp H Hq Hqm.
  destruct (c =? 0) eqn:Hc; [discriminate|].
  apply Z.eqb_neq in Hc. injection H as <-.
  assert (Hpos : 0 < c).
  { destruct (Z_lt_le_dec 0 c) as [|Hneg]; [assumption|].
    assert (Hc' : c < 0) by lia.
    pose proof (Z.div_mod lp c Hc) as Hdm.
    pose proof (Z.mod_neg_bound lp c Hc') as Hr.
    nia. }
  split; [exact Hpos|].
  pose proof (Z.mul_div_le lp c Hpos). nia.
Qed.

Lemma Qdiv_neg_divisor (x y : Q) : (0 < x)%Q -> (y < 0)%Q -> (x / y < 0)%Q.
Proof.
  intros Hx Hy.
  assert (Hny : (0 < - y)%Q) by lra.
  assert (H : (0 < x / - y)%Q).
  { apply Qlt_shift_div_l; [exact Hny | lra]. }
  assert (E : (x / - y == - (x / y))%Q).
  { field. intro E. rewrite E in Hy. exact (Qlt_irrefl _ Hy). }
  rewrite E in H. lra.
Qed.

Lemma float_floordiv_bound (cargo v m : Q) (q : Z) :
  (0 < cargo)%Q -> float_floordiv cargo v = Return m -> 0 < q ->
  q <= py_int m ->
  (0 < v)%Q /\ (inject_Z q * v <= cargo)%Q.
Proof.
  unfold float_floordiv. intros Hc H Hq Hqm.
  destruct (Qeq_bool v 0) eqn:Hv; [discriminate|].
  apply Qeq_bool_false_iff in Hv. injection H as <-.
  rewrite py_int_inject_Z in Hqm.
  assert (Hfl : (inject_Z q <= cargo / v)%Q).
  { eapply Qle_trans; [|apply Qfloor_le].
    rewrite <- Zle_Qle. exact Hqm. }
  assert (Hq1 : (1 <= inject_Z q)%Q).
  { change 1%Q with (inject_Z 1). rewrite <- Zle_Qle. lia. }
  assert (Hpos : (0 < v)%Q).
  { destruct (Qlt_le_dec 0 v) as [|Hneg]; [assumption|].
    assert (Hlt : (v < 0)%Q).
    { apply Qle_lteq in Hneg. destruct Hneg as [|E]; [assumption|].
      contradiction. }
    pose proof (Qdiv_neg_divisor cargo v Hc Hlt). lra. }
  split; [exact Hpos|].
  assert (E : (cargo == cargo / v * v)%Q) by (field; exact Hv).
  apply Qle_trans with (cargo / v * v)%Q.
  - apply Qmult_le_compat_r; [exact Hfl | lra].
  - rewrite <- E. apply Qle_refl.
Qed.



Lemma budget_exhausted_false (lp : Z) (cargo : Q) :
  budget_exhausted lp cargo = false <-> 0 < lp /\ (0 < cargo)%Q.
Proof.
  unfold budget_exhausted. rewrite orb_false_iff, Z.leb_gt, Qle_bool_false_iff.
  reflexivity.
Qed.

Lemma budget_exhausted_true (lp : Z) (cargo : Q) :
  budget_exhausted lp cargo = true <-> lp <= 0 \/ (cargo <= 0)%Q.
Proof.
  unfold budget_exhausted. rewrite orb_true_iff, Z.leb_le, Qle_bool_iff.
  reflexivity.
Qed.

(** ** Greedy allocation *)









(** ** Diversified allocation: one entry, one round *)

Lemma allocate_entry_inv (mds bsd : Q) (e e' : purchase) (st st' : budgets) :
  0 < remaining_lp st -> (0 < remaining_cargo st)%Q ->
  allocate_entry mds bsd e st = Return (e', st') ->
  fst e' = fst e
  /\ snd e' * lp_cost (item (fst e)) + remaining_lp st'
     = snd e * lp_cost (item (fst e)) + remaining_lp st
  /\ (inject_Z (snd e') * volume_per_purchase (item (fst e))
      + remaining_cargo st'
      == inject_Z (snd e) * volume_per_purchase (item (fst e))
         + remaining_cargo st)%Q
  /\ 0 <= remaining_lp st' /\ (0 <= remaining_cargo st')%Q
  /\ (st' = st /\ e' = e
      \/ allocation_made st' = true
         /\ remaining_lp st' < remaining_lp st
         /\ snd e < snd e'
         /\ within_cap mds e').
Proof.
  intros Hlp Hcargo H.
  assert (Hsame : st' = st /\ e' = e ->
            fst e' = fst e
            /\ snd e' * lp_cost (item (fst e)) + remaining_lp st'
               = snd e * lp_cost (item (fst e)) + remaining_lp st
            /\ (inject_Z (snd e') * volume_per_purchase (item (fst e))
                + remaining_cargo st'
                == inject_Z (snd e) * volume_per_purchase (item (fst e))
                   + remaining_cargo st)%Q
            /\ 0 <= remaining_lp st' /\ (0 <= remaining_cargo st')%Q
            /\ (st' = st /\ e' = e
                \/ allocation_made st' = true
                   /\ remaining_lp st' < remaining_lp st
                   /\ snd e < snd e'
                   /\ within_cap mds e')).
  { intros [-> ->]. repeat split; try reflexivity; try lia; try lra.
    left. split; reflexivity. }
  destruct e as [a cur]. unfold allocate_entry in H.
  set (bp_rfi :=
         if Qltb 0 (daily_volume_purchases a)
         then (Z.min (Z.max 1 (py_int (daily_volume_purchases a * bsd)%Q))
                     (Z.max 0 (py_int (daily_volume_purchases a * mds)%Q - cur)),
               Z.max 0 (py_int (daily_volume_purchases a * mds)%Q - cur))
         else (1, 1 - cur)) in H.
  assert (Hcap : 0 < snd bp_rfi ->
                 cur + fst bp_rfi <= liquidity_cap mds a).
  { unfold bp_rfi, liquidity_cap.
    destruct (Qltb 0 (daily_volume_purchases a)); cbn [fst snd]; lia. }
  destruct bp_rfi as [bp rfi]. cbn [fst snd] in Hcap.
  destruct (rfi <=? 0) eqn:Hrfi.
  { injection H as <- <-. apply Hsame. split; reflexivity. }
  apply Z.leb_gt in Hrfi.
  destruct (int_floordiv (remaining_lp st) (lp_cost (item a))) as [m|] eqn:Hm;
    [|discriminate].
  cbn [bind] in H.
  destruct (float_floordiv (remaining_cargo st) (volume_per_purchase (item a)))
    as [c|] eqn:Hc; [|discriminate].
  cbn [bind] in H.
  set (q := Z.min (Z.min bp m) (py_int c)) in H.
  destruct (0 <? q) eqn:Hq.
  2:{ injection H as <- <-. apply Hsame. split; reflexivity. }
  apply Z.ltb_lt in Hq. injection H as <- <-. cbn [fst snd remaining_lp
    remaining_cargo allocation_made].
  destruct (int_floordiv_bound _ _ m q Hlp Hm Hq) as [Hpos Hle];
    [unfold q; lia|].
  destruct (float_floordiv_bound _ _ c q Hcargo Hc Hq) as [Hvpos Hvle];
    [unfold q; lia|].
  split; [reflexivity|]. split; [lia|].
  split; [rewrite inject_Z_plus; ring|].
  split; [lia|]. split; [lra|].
  right. split; [reflexivity|]. split; [nia|]. split; [lia|].
  unfold within_cap. cbn [fst snd]. specialize (Hcap Hrfi). unfold q. lia.
Qed.


Lemma allocation_round_inv (mds bsd : Q) (allocs : list purchase) :
  forall (st : budgets) (allocs' : list purchase) (st' : budgets),
    0 <= remaining_lp st -> (0 <= remaining_cargo st)%Q ->
    allocation_round mds bsd allocs st = Return (allocs', st') ->
    map fst allocs' = map fst allocs
    /\ Forall2 (fun p p' => snd p <= snd p') allocs allocs'
    /\ total_lp_used allocs' + remaining_lp st'
       = total_lp_used allocs + remaining_lp st
    /\ (total_volume allocs' + remaining_cargo st'
        == total_volume allocs + remaining_cargo st)%Q
    /\ 0 <= remaining_lp st' /\ (0 <= remaining_cargo st')%Q
    /\ (st' = st /\ allocs' = allocs
        \/ allocation_made st' = true /\ remaining_lp st' < remaining_lp st)
    /\ remaining_lp st' <= remaining_lp st
    /\ (Forall (within_cap mds) allocs -> Forall (within_cap mds) allocs').
Proof.
  assert (Hrefl : forall l : list purchase,
            Forall2 (fun p p' => snd p <= snd p') l l).
  { induction l; constructor; [lia | assumption]. }
  induction allocs as [|e rest IH]; intros st allocs' st' Hlp Hcargo H;
    simpl in H.
  - injection H as <- <-. repeat split; try reflexivity; try lia; try lra.
    + constructor.
    + left. split; reflexivity.
    + intros _. constructor.
  - destruct (budget_exhausted (remaining_lp st) (remaining_cargo st)) eqn:Hex.
    + injection H as <- <-. repeat split; try reflexivity; try lia; try lra.
      * apply Hrefl.
      * left. split; reflexivity.
      * intro Hc. exact Hc.
    + apply budget_exhausted_false in Hex. destruct Hex as [Hlp' Hcargo'].
      destruct (allocate_entry mds bsd e st) as [[e1 st1]|] eqn:He;
        [|discriminate].
      cbn [bind] in H.
      destruct (allocation_round mds bsd rest st1) as [[rest1 st2]|] eqn:Hr;
        [|discriminate].
      cbn [bind] in H. injection H as <- <-.
      destruct (allocate_entry_inv mds bsd e e1 st st1 Hlp' Hcargo' He)
        as (Hfst & Hl & Hv & Hlp1 & Hcargo1 & Hstep).
      destruct (IH st1 rest1 st2 Hlp1 Hcargo1 Hr)
        as (Hmap & Hmono & Hl2 & Hv2 & Hlp2 & Hcargo2 & Hprog & Hle & Hcap).
      split; [simpl; rewrite Hfst, Hmap; reflexivity|].
      split.
      { constructor; [|exact Hmono].
        destruct Hstep as [[_ ->] | (_ & _ & Hlt & _)]; lia. }
      split; [simpl; rewrite Hfst; lia|].
      split.
      { simpl. rewrite Hfst.
        rewrite <- Qplus_assoc, Hv2.
        rewrite (Qplus_comm (total_volume rest)), Qplus_assoc, Hv. ring. }
      split; [exact Hlp2|]. split; [exact Hcargo2|].
      split.
      { destruct Hstep as [[-> ->] | (Hmade & Hlt & _)].
        - destruct Hprog as [[-> ->] | [Hmade Hlt]].
          + left. split; reflexivity.
          + right. split; assumption.
        - right. split; [|lia].
          destruct Hprog as [[-> _] | [Hmade' _]]; assumption. }
      split.
      { destruct Hstep as [[-> _] | (_ & Hlt & _)]; lia. }
      intro Hc. inversion Hc as [|? ? Hce Hcrest]; subst.
      constructor; [|apply Hcap, Hcrest].
      destruct Hstep as [[_ ->] | (_ & _ & _ & Hw)]; assumption.
Qed.


(** ** Diversified allocation: the round loop *)

Lemma continue_rounds_true (st : budgets) :
  continue_rounds st = true <->
  allocation_made st = true /\ 0 < remaining_lp st
  /\ (0 < remaining_cargo st)%Q.
Proof.
  unfold continue_rounds.
  rewrite !andb_true_iff, Z.ltb_lt, Qltb_true_iff. tauto.
Qed.

Lemma allocation_rounds_stop (fuel : nat) (mds bsd : Q)
    (allocs : list purchase) (st : budgets) :
  continue_rounds st = false ->
  allocation_rounds fuel mds bsd allocs st = Some (Return (allocs, st)).
Proof.
  intro H. destruct fuel; simpl; rewrite H; reflexivity.
Qed.

Lemma allocation_rounds_step (fuel : nat) (mds bsd : Q)
    (allocs : list purchase) (st : budgets) :
  continue_rounds st = true ->
  allocation_rounds (S fuel) mds bsd allocs st
  = match allocation_round mds bsd allocs
            {| remaining_lp := remaining_lp st;
               remaining_cargo := remaining_cargo st;
               allocation_made := false |} with
    | Raise e => Some (Raise e)
    | Return (allocs', st') => allocation_rounds fuel mds bsd allocs' st'
    end.
Proof.
  intro H. simpl. rewrite H. reflexivity.
Qed.

Lemma allocation_rounds_terminates (mds bsd : Q) (fuel : nat) :
  forall (allocs : list purchase) (st : budgets),
    (Z.to_nat (remaining_lp st) <= fuel)%nat ->
    exists r, allocation_rounds fuel mds bsd allocs st = Some r.
Proof.
  induction fuel as [|fuel IH]; intros allocs st Hfuel;
    destruct (continue_rounds st) eqn:Hc;
    try (rewrite allocation_rounds_stop by assumption; eexists; reflexivity).
  - apply continue_rounds_true in Hc. lia.
  - rewrite allocation_rounds_step by assumption.
    apply continue_rounds_true in Hc. destruct Hc as (_ & Hlp & Hcargo).
    destruct (allocation_round _ _ _ _) as [[allocs' st']|] eqn:Hr;
      [|eexists; reflexivity].
    apply allocation_round_inv in Hr; cbn [remaining_lp remaining_cargo];
      [|lia|lra].
    destruct Hr as (_ & _ & _ & _ & _ & _ & Hprog & _).
    destruct Hprog as [[-> _] | [_ Hlt]].
    + rewrite allocation_rounds_stop by reflexivity. eexists; reflexivity.
    + cbn [remaining_lp] in Hlt. apply IH. lia.
Qed.


Lemma allocation_rounds_inv (mds bsd : Q) (fuel : nat) :
  forall (allocs : list purchase) (st : budgets)
         (allocs' : list purchase) (st' : budgets),
    0 <= remaining_lp st -> (0 <= remaining_cargo st)%Q ->
    allocation_rounds fuel mds bsd allocs st = Some (Return (allocs', st')) ->
    map fst allocs' = map fst allocs
    /\ Forall2 (fun p p' => snd p <= snd p') allocs allocs'
    /\ total_lp_used allocs' + remaining_lp st'
       = total_lp_used allocs + remaining_lp st
    /\ (total_volume allocs' + remaining_cargo st'
        == total_volume allocs + remaining_cargo st)%Q
    /\ 0 <= remaining_lp st' /\ (0 <= remaining_cargo st')%Q
    /\ (Forall (within_cap mds) allocs -> Forall (within_cap mds) allocs').
Proof.
  assert (Hrefl : forall l : list purchase,
            Forall2 (fun p p' => snd p <= snd p') l l).
  { induction l; constructor; [lia | assumption]. }
  assert (Htrans : forall l1 l2 l3 : list purchase,
            Forall2 (fun p p' => snd p <= snd p') l1 l2 ->
            Forall2 (fun p p' => snd p <= snd p') l2 l3 ->
            Forall2 (fun p p' => snd p <= snd p') l1 l3).
  { intros l1 l2 l3 H12. revert l3.
    induction H12; intros l3 H23; inversion H23; subst; constructor;
      [lia | auto]. }
  induction fuel as [|fuel IH]; intros allocs st allocs' st' Hlp Hcargo H;
    destruct (continue_rounds st) eqn:Hc;
    try (rewrite allocation_rounds_stop in H by assumption;
         injection H as <- <-;
         repeat split; try reflexivity; try assumption; auto).
  - simpl in H. rewrite Hc in H. discriminate.
  - rewrite allocation_rounds_step in H by assumption.
    destruct (allocation_round _ _ _ _) as [[allocs1 st1]|] eqn:Hr;
      [|discriminate].
    apply allocation_round_inv in Hr; cbn [remaining_lp remaining_cargo];
      try assumption.
    cbn [remaining_lp remaining_cargo] in Hr.
    destruct Hr as (Hmap & Hmono & Hl & Hv & Hlp1 & Hcargo1 & _ & _ & Hcap).
    destruct (IH allocs1 st1 allocs' st' Hlp1 Hcargo1 H)
      as (Hmap' & Hmono' & Hl' & Hv' & Hlp' & Hcargo' & Hcap').
    split; [congruence|].
    split; [eapply Htrans; eassumption|].
    split; [lia|].
    split; [rewrite Hv', Hv; reflexivity|].
    split; [exact Hlp'|]. split; [exact Hcargo'|].
    intro Hw. apply Hcap', Hcap, Hw.
Qed.


(** ** Totals of the returned plan *)

Lemma initial_allocations_fst (items : list ItemAnalysis) :
  map fst (initial_allocations items) = items.
Proof.
  unfold initial_allocations. rewrite map_map. simpl. apply map_id.
Qed.





(** ** Budgets *)






(** ** The liquidity cap along the round loop *)









(** ** Termination of the round loop *)

(** C4: the round loop of the diversified allocator terminates on every
    input, in at most as many rounds as there are LP points available; a
    round is repeated only while the previous one allocated something and
    both budgets are positive, a round that allocates nothing leaves the
    allocations untouched and ends the loop, and a round that allocates
    something strictly lowers the integer remaining LP. *)
Theorem diversified_round_loop_terminates (mds bsd : Q) :
  (forall items lp cargo fuel,
     (enough_fuel lp <= fuel)%nat ->
     exists r, _diversified_allocation fuel items lp cargo mds bsd = Some r)
  /\ (forall fuel allocs st,
        allocation_made st = false \/ remaining_lp st <= 0
        \/ (remaining_cargo st <= 0)%Q ->
        allocation_rounds fuel mds bsd allocs st = Some (Return (allocs, st)))
  /\ (forall allocs lp cargo allocs' st',
        0 < lp -> (0 < cargo)%Q ->
        allocation_round mds bsd allocs
          {| remaining_lp := lp; remaining_cargo := cargo;
             allocation_made := false |} = Return (allocs', st') ->
        (allocation_made st' = false ->
         allocs' = allocs
         /\ forall fuel,
              allocation_rounds fuel mds bsd allocs' st'
              = Some (Return (allocs', st')))
        /\ (allocation_made st' = true -> remaining_lp st' < lp)).
Proof.
  split; [|split].
  - intros items lp cargo fuel Hfuel. unfold _diversified_allocation.
    destruct (allocation_rounds_terminates mds bsd fuel
                (initial_allocations items)
                {| remaining_lp := lp; remaining_cargo := cargo;
                   allocation_made := true |} Hfuel) as [r ->].
    destruct r as [[allocs st]|e]; eexists; reflexivity.
  - intros fuel allocs st H. apply allocation_rounds_stop.
    destruct (continue_rounds st) eqn:Hc; [|reflexivity].
    apply continue_rounds_true in Hc. destruct Hc as (Hm & Hlp & Hcargo).
    destruct H as [H | [H | H]]; [congruence | lia | lra].
  - intros allocs lp cargo allocs' st' Hlp Hcargo Hr.
    apply allocation_round_inv in Hr; cbn [remaining_lp remaining_cargo];
      [|lia|lra].
    destruct Hr as (_ & _ & _ & _ & _ & _ & Hprog & _).
    cbn [remaining_lp] in Hprog. split.
    + intro Hm. destruct Hprog as [[-> ->] | [Hm' _]]; [|congruence].
      split; [reflexivity|]. intro fuel.
      apply allocation_rounds_stop. reflexivity.
    + intro Hm. destruct Hprog as [[-> _] | [_ Hlt]]; [discriminate|exact Hlt].
Qed.

Lemma diversified_round_loop_terminates_witness :
  exists r,
    _diversified_allocation (enough_fuel 60) twin_analyses 60 50 14 2
    = Some r.
Proof.
  apply (proj1 (diversified_round_loop_terminates 14 2)).
  apply le_n.
Defined.

(** ** Spreading when the budgets never bind *)










(** ** Division by a zero volume-per-lot *)






(** * Further properties of the allocators *)

(** ** Shape of a returned plan *)

Lemma greedy_plan_positive (items : list ItemAnalysis) (mds : Q) :
  forall lp cargo plan,
    _greedy_allocation items lp cargo mds = Return plan ->
    Forall (fun p => 1 <= snd p) plan.
Proof.
  induction items as [|a rest IH]; intros lp cargo plan H; simpl in H.
  - injection H as <-. constructor.
  - destruct (budget_exhausted lp cargo); [injection H as <-; constructor|].
    destruct (greedy_quantity a lp cargo mds) as [q|]; [|discriminate].
    cbn [bind] in H. destruct (0 <? q) eqn:Hq.
    + destruct (_greedy_allocation rest _ _ mds) as [ps|] eqn:Hr;
        [|discriminate].
      cbn [bind] in H. injection H as <-. apply Z.ltb_lt in Hq.
      constructor; [cbn; lia | eapply IH; exact Hr].
    + eapply IH; exact H.
Qed.

Lemma nonzero_allocations_positive (allocs : list purchase) :
  Forall (fun p => 1 <= snd p) (nonzero_allocations allocs).
Proof.
  apply Forall_forall. intros p Hp. unfold nonzero_allocations in Hp.
  apply filter_In in Hp. destruct Hp as [_ Hp]. apply Z.ltb_lt in Hp. lia.
Qed.

Lemma diversified_plan_inv (fuel : nat) (items : list ItemAnalysis) (lp : Z)
    (cargo mds bsd : Q) (plan : list purchase) :
  _diversified_allocation fuel items lp cargo mds bsd = Some (Return plan) ->
  exists allocs st,
    allocation_rounds fuel mds bsd (initial_allocations items)
      {| remaining_lp := lp; remaining_cargo := cargo;
         allocation_made := true |} = Some (Return (allocs, st))
    /\ plan = nonzero_allocations allocs.
Proof.
  unfold _diversified_allocation. intro H.
  destruct (allocation_rounds _ _ _ _ _) as [[[allocs st]|]|];
    try discriminate.
  injection H as <-. exists allocs, st. split; reflexivity.
Qed.

(** X1: every quantity in a plan returned by either allocator is at least
    1; a candidate that gets nothing is left out of the plan. *)
Theorem plan_quantities_at_least_one (items : list ItemAnalysis) (lp : Z)
    (cargo mds bsd : Q) (fuel : nat) (plan : list purchase) :
  _greedy_allocation items lp cargo mds = Return plan
  \/ _diversified_allocation fuel items lp cargo mds bsd = Some (Return plan) ->
  forall a q, In (a, q) plan -> 1 <= q.
Proof.
  intros H a q Hin.
  assert (Hpos : Forall (fun p => 1 <= snd p) plan).
  { destruct H as [H | H].
    - eapply greedy_plan_positive; exact H.
    - apply diversified_plan_inv in H. destruct H as (allocs & st & _ & ->).
      apply nonzero_allocations_positive. }
  rewrite Forall_forall in Hpos. exact (Hpos _ Hin).
Qed.

Lemma plan_quantities_at_least_one_witness :
  exists plan,
    _greedy_allocation twin_analyses 6000 50 14 = Return plan
    /\ forall a q, In (a, q) plan -> 1 <= q.
Proof.
  eexists. split; [vm_compute; reflexivity|].
  apply (plan_quantities_at_least_one twin_analyses 6000 50 14 2 0).
  left. vm_compute. reflexivity.
Defined.

Lemma subseq_refl {A : Type} (l : list A) : subseq l l.
Proof. induction l; constructor; assumption. Qed.

Lemma subseq_filter_map {A B : Type} (f : A -> B) (keep : A -> bool)
    (l : list A) :
  subseq (map f (filter keep l)) (map f l).
Proof.
  induction l as [|x xs IH]; simpl; [constructor|].
  destruct (keep x); simpl; constructor; exact IH.
Qed.

Lemma subseq_in {A : Type} (l1 l2 : list A) (x : A) :
  subseq l1 l2 -> In x l1 -> In x l2.
Proof.
  induction 1 as [|y l1 l2 _ IH|y l1 l2 _ IH]; intro Hin.
  - exact Hin.
  - right. exact (IH Hin).
  - destruct Hin as [<- | Hin]; [left; reflexivity | right; exact (IH Hin)].
Qed.

Lemma subseq_length {A : Type} (l1 l2 : list A) :
  subseq l1 l2 -> (List.length l1 <= List.length l2)%nat.
Proof. induction 1; simpl; lia. Qed.

Lemma greedy_plan_subseq (items : list ItemAnalysis) (mds : Q) :
  forall lp cargo plan,
    _greedy_allocation items lp cargo mds = Return plan ->
    subseq (map fst plan) items.
Proof.
  assert (Hnil : forall l : list ItemAnalysis, subseq [] l).
  { induction l; constructor; assumption. }
  induction items as [|a rest IH]; intros lp cargo plan H; simpl in H.
  - injection H as <-. constructor.
  - destruct (budget_exhausted lp cargo); [injection H as <-; apply Hnil|].
    destruct (greedy_quantity a lp cargo mds) as [q|]; [|discriminate].
    cbn [bind] in H. destruct (0 <? q).
    + destruct (_greedy_allocation rest _ _ mds) as [ps|] eqn:Hr;
        [|discriminate].
      cbn [bind] in H. injection H as <-. simpl.
      apply subseq_keep. eapply IH; exact Hr.
    + apply subseq_skip. eapply IH; exact H.
Qed.

Lemma allocation_rounds_fst (fuel : nat) (mds bsd : Q)
    (items : list ItemAnalysis) (lp : Z) (cargo : Q)
    (allocs : list purchase) (st : budgets) :
  allocation_rounds fuel mds bsd (initial_allocations items)
    {| remaining_lp := lp; remaining_cargo := cargo;
       allocation_made := true |} = Some (Return (allocs, st)) ->
  map fst allocs = items.
Proof.
  intro Hr.
  destruct (continue_rounds {| remaining_lp := lp; remaining_cargo := cargo;
                               allocation_made := true |}) eqn:Hc.
  - apply continue_rounds_true in Hc. cbn in Hc. destruct Hc as (_ & Hlp & Hcg).
    apply allocation_rounds_inv in Hr; cbn [remaining_lp remaining_cargo];
      [|lia|lra].
    destruct Hr as (Hmap & _). rewrite Hmap. apply initial_allocations_fst.
  - rewrite allocation_rounds_stop in Hr by exact Hc.
    injection Hr as <- _. apply initial_allocations_fst.
Qed.

Lemma diversified_plan_subseq (fuel : nat) (items : list ItemAnalysis)
    (lp : Z) (cargo mds bsd : Q) (plan : list purchase) :
  _diversified_allocation fuel items lp cargo mds bsd = Some (Return plan) ->
  subseq (map fst plan) items.
Proof.
  intro H. apply diversified_plan_inv in H.
  destruct H as (allocs & st & Hr & ->).
  apply allocation_rounds_fst in Hr. rewrite <- Hr.
  apply subseq_filter_map.
Qed.

(** X2: the candidates of a plan returned by either allocator are the
    candidate list with some candidates left out: the plan keeps the score
    order, names only candidates it was given, and has at most one entry per
    position of the candidate list. *)
Theorem plan_follows_candidate_order (items : list ItemAnalysis) (lp : Z)
    (cargo mds bsd : Q) (fuel : nat) (plan : list purchase) :
  _greedy_allocation items lp cargo mds = Return plan
  \/ _diversified_allocation fuel items lp cargo mds bsd = Some (Return plan) ->
  subseq (map fst plan) items
  /\ (forall a q, In (a, q) plan -> In a items)
  /\ (List.length plan <= List.length items)%nat.
Proof.
  intro H.
  assert (Hs : subseq (map fst plan) items).
  { destruct H as [H | H].
    - eapply greedy_plan_subseq; exact H.
    - eapply diversified_plan_subseq; exact H. }
  split; [exact Hs|]. split.
  - intros a q Hin. apply (subseq_in _ _ a Hs).
    apply in_map_iff. exists (a, q). split; [reflexivity | exact Hin].
  - pose proof (subseq_length _ _ Hs) as Hl. rewrite length_map in Hl.
    exact Hl.
Qed.

Lemma plan_follows_candidate_order_witness :
  exists plan,
    _diversified_allocation 2 twin_analyses 6000 50 14 2 = Some (Return plan)
    /\ subseq (map fst plan) twin_analyses.
Proof.
  eexists. split; [vm_compute; reflexivity|].
  apply (plan_follows_candidate_order twin_analyses 6000 50 14 2 2).
  right. vm_compute. reflexivity.
Defined.

(** ** Budgets that are not positive *)

Lemma greedy_exhausted (items : list ItemAnalysis) (lp : Z) (cargo mds : Q) :
  lp <= 0 \/ (cargo <= 0)%Q ->
  _greedy_allocation items lp cargo mds = Return [].
Proof.
  intro H. apply budget_exhausted_true in H.
  destruct items as [|a rest]; simpl; [reflexivity|].
  rewrite H. reflexivity.
Qed.

Lemma nonzero_initial_allocations (items : list ItemAnalysis) :
  nonzero_allocations (initial_allocations items) = [].
Proof.
  induction items as [|a rest IH]; simpl; [reflexivity | exact IH].
Qed.

Lemma diversified_exhausted (fuel : nat) (items : list ItemAnalysis) (lp : Z)
    (cargo mds bsd : Q) :
  lp <= 0 \/ (cargo <= 0)%Q ->
  _diversified_allocation fuel items lp cargo mds bsd = Some (Return []).
Proof.
  intro H. unfold _diversified_allocation.
  rewrite allocation_rounds_stop.
  - rewrite nonzero_initial_allocations. reflexivity.
  - unfold continue_rounds. cbn. destruct H as [H | H].
    + replace (0 <? lp) with false by (symmetry; apply Z.ltb_ge; lia).
      reflexivity.
    + replace (Qltb 0 cargo) with false
        by (symmetry; apply Qltb_false_iff; exact H).
      apply andb_false_r.
Qed.

(** X3: when the LP budget or the cargo budget is not positive, both
    allocators return the empty plan without touching any candidate (so
    without dividing, whatever the candidates are); hence a non-empty plan
    means both budgets were positive. *)
Theorem no_budget_no_plan (items : list ItemAnalysis) (lp : Z)
    (cargo mds bsd : Q) :
  (lp <= 0 \/ (cargo <= 0)%Q ->
   _greedy_allocation items lp cargo mds = Return []
   /\ forall fuel,
        _diversified_allocation fuel items lp cargo mds bsd
        = Some (Return []))
  /\ (forall fuel plan,
        plan <> [] ->
        _greedy_allocation items lp cargo mds = Return plan
        \/ _diversified_allocation fuel items lp cargo mds bsd
           = Some (Return plan) ->
        0 < lp /\ (0 < cargo)%Q).
Proof.
  split.
  - intro H. split; [apply greedy_exhausted, H|].
    intro fuel. apply diversified_exhausted, H.
  - intros fuel plan Hne H.
    destruct (Z_lt_le_dec 0 lp) as [Hlp | Hlp];
      [destruct (Qlt_le_dec 0 cargo) as [Hc | Hc]; [split; assumption|]|].
    + exfalso. apply Hne. destruct H as [H | H].
      * rewrite greedy_exhausted in H by (right; exact Hc). congruence.
      * rewrite diversified_exhausted in H by (right; exact Hc). congruence.
    + exfalso. apply Hne. destruct H as [H | H].
      * rewrite greedy_exhausted in H by (left; exact Hlp). congruence.
      * rewrite diversified_exhausted in H by (left; exact Hlp). congruence.
Qed.

Lemma no_budget_no_plan_witness :
  _greedy_allocation weightless_analyses 0 5000 14 = Return []
  /\ forall fuel,
       _diversified_allocation fuel weightless_analyses 0 5000 14 4
       = Some (Return []).
Proof.
  apply (proj1 (no_budget_no_plan weightless_analyses 0 5000 14 4)).
  left. discriminate.
Defined.

(** ** The liquidity bound of the greedy strategy *)




(** ** Diversified allocation with budgets that never bind *)









(** ** Items the market absorbs in more than max-days-to-sell *)





(** * Further properties of scoring and filtering *)









Lemma subseq_filter {A : Type} (keep : A -> bool) (l : list A) :
  subseq (filter keep l) l.
Proof.
  induction l as [|x xs IH]; simpl; [constructor|].
  destruct (keep x); constructor; exact IH.
Qed.

(** X9: the liquidity filter.  The selected candidates are always the
    analysis list with some candidates left out, in the same order; and as
    soon as one candidate meets the minimum-liquidity threshold, the
    fallback does not apply: the selected candidates are exactly those
    whose absorption is at least the threshold. *)
Theorem select_viable_filters (analyses : list ItemAnalysis)
    (min_liquidity : Q) :
  subseq (select_viable analyses min_liquidity) analyses
  /\ ((exists a, In a analyses
                 /\ (min_liquidity <= daily_volume_purchases a)%Q) ->
      select_viable analyses min_liquidity
      = liquidity_filter analyses min_liquidity
      /\ forall a, In a (select_viable analyses min_liquidity) <->
           In a analyses /\ (min_liquidity <= daily_volume_purchases a)%Q).
Proof.
  split.
  - unfold select_viable.
    destruct (liquidity_filter analyses min_liquidity) eqn:E.
    + apply subseq_refl.
    + rewrite <- E. apply subseq_filter.
  - intros (a0 & Hin & Hle).
    assert (Hf : In a0 (liquidity_filter analyses min_liquidity)).
    { apply filter_In. split; [exact Hin|]. apply Qle_bool_iff. exact Hle. }
    assert (E : select_viable analyses min_liquidity
                = liquidity_filter analyses min_liquidity).
    { unfold select_viable.
      destruct (liquidity_filter analyses min_liquidity);
        [destruct Hf | reflexivity]. }
    split; [exact E|]. intro a. rewrite E. unfold liquidity_filter.
    rewrite filter_In, Qle_bool_iff. reflexivity.
Qed.

Lemma select_viable_filters_witness :
  select_viable twin_analyses (3 # 10)
  = liquidity_filter twin_analyses (3 # 10).
Proof.
  apply (proj2 (select_viable_filters twin_analyses (3 # 10))).
  eexists. split; [left; reflexivity | discriminate].
Defined.

(** * Further properties of the analyzer *)

Lemma inject_Z_zero_iff (n : Z) : Qeq_bool (inject_Z n) 0 = true <-> n = 0.
Proof.
  rewrite Qeq_bool_iff. unfold Qeq. simpl. lia.
Qed.







(** X12: when the analyzer raises.  Analysing one entry raises
    (ZeroDivisionError) exactly when both quotes are present, the output
    price is positive, and either the entry's lp-cost is 0 or the entry is
    profitable with units-per-lot 0; a zero volume-per-lot never makes it
    raise. *)
Theorem analyze_item_raises_iff (it : LPStoreItem)
    (base faction : option MarketData) :
  analyze_item it base faction = Raise ZeroDivisionError <->
  exists b f,
    base = Some b /\ faction = Some f /\ (0 < price f)%Q
    /\ (lp_cost it = 0
        \/ ((price b * inject_Z (units_per_purchase it)
             + inject_Z (isk_cost it)
             < price f * inject_Z (units_per_purchase it))%Q
            /\ units_per_purchase it = 0)).
Proof.
  unfold analyze_item.
  destruct base as [b|];
    [|split; [discriminate | intros (? & ? & ? & _); discriminate]].
  destruct faction as [f|];
    [|split; [discriminate | intros (? & ? & _ & ? & _); discriminate]].
  destruct (Qle_bool (price f) 0) eqn:Hprice.
  { apply Qle_bool_iff in Hprice. split; [discriminate|].
    intros (b' & f' & _ & Ef & Hp & _). injection Ef as <-. lra. }
  apply Qle_bool_false_iff in Hprice. cbv zeta. unfold truediv.
  destruct (Qeq_bool (inject_Z (lp_cost it)) 0) eqn:Hl.
  { apply inject_Z_zero_iff in Hl.
    split.
    - intros _. exists b, f. repeat split; try reflexivity; auto.
    - intros _. destruct (Qle_bool _ 0); reflexivity. }
  assert (Hl' : lp_cost it <> 0).
  { intro E. apply inject_Z_zero_iff in E. congruence. }
  destruct (Qle_bool _ 0) eqn:Hprofit; cbn [bind].
  { apply Qle_bool_iff in Hprofit. split; [discriminate|].
    intros (b' & f' & Eb & Ef & _ & [Hz | [Hlt _]]); [contradiction|].
    injection Eb as <-. injection Ef as <-. lra. }
  apply Qle_bool_false_iff in Hprofit.
  destruct (Qeq_bool (inject_Z (units_per_purchase it)) 0) eqn:Hu;
    cbn [bind].
  { apply inject_Z_zero_iff in Hu. split; [|reflexivity].
    intros _. exists b, f. repeat split; try reflexivity; auto.
    right. split; [lra | exact Hu]. }
  assert (Hu' : units_per_purchase it <> 0).
  { intro E. apply inject_Z_zero_iff in E. congruence. }
  assert (Hno : forall r : py (option ItemAnalysis),
            (exists x, r = Return x) ->
            r = Raise ZeroDivisionError <->
            exists b0 f0,
              Some b = Some b0 /\ Some f = Some f0 /\ (0 < price f0)%Q
              /\ (lp_cost it = 0
                  \/ ((price b0 * inject_Z (units_per_purchase it)
                       + inject_Z (isk_cost it)
                       < price f0 * inject_Z (units_per_purchase it))%Q
                      /\ units_per_purchase it = 0))).
  { intros r [x ->]. split; [discriminate|].
    intros (b' & f' & _ & _ & _ & [Hz | [_ Hz]]); contradiction. }
  apply Hno.
  destruct (Qltb 0 (volume_per_purchase it)) eqn:Hv.
  - apply Qltb_true_iff in Hv.
    replace (Qeq_bool (volume_per_purchase it) 0) with false.
    + cbn [bind]. eexists; reflexivity.
    + symmetry. apply Qeq_bool_false_iff. intro E. rewrite E in Hv.
      exact (Qlt_irrefl _ Hv).
  - cbn [bind]. eexists; reflexivity.
Qed.

(** * The live market-data client *)

(** ** Sorting by price *)

Lemma insert_asc_perm {A : Type} (key : A -> Q) (x : A) (l : list A) :
  Permutation (insert_asc key x l) (x :: l).
Proof.
  induction l as [|y ys IH]; simpl; [apply Permutation_refl|].
  destruct (Qltb (key y) (key x)).
  - eapply Permutation_trans; [apply perm_skip, IH | apply perm_swap].
  - apply Permutation_refl.
Qed.

Lemma sort_asc_perm {A : Type} (key : A -> Q) (l : list A) :
  Permutation (sort_asc key l) l.
Proof.
  induction l as [|x xs IH]; simpl; [apply perm_nil|].
  eapply Permutation_trans; [apply insert_asc_perm | apply perm_skip, IH].
Qed.

Lemma insert_asc_forall {A : Type} (key : A -> Q) (P : A -> Prop) (x : A)
    (l : list A) :
  P x -> Forall P l -> Forall P (insert_asc key x l).
Proof.
  intros Hx Hl. induction Hl as [|y ys Hy Hys IH]; simpl.
  - constructor; [exact Hx | constructor].
  - destruct (Qltb (key y) (key x)).
    + constructor; assumption.
    + constructor; [exact Hx|]. constructor; assumption.
Qed.

Lemma insert_asc_sorted {A : Type} (key : A -> Q) (x : A) (l : list A) :
  StronglySorted (fun u v => (key u <= key v)%Q) l ->
  StronglySorted (fun u v => (key u <= key v)%Q) (insert_asc key x l).
Proof.
  induction 1 as [|y ys Hs IH Hy]; simpl.
  - constructor; constructor.
  - destruct (Qltb (key y) (key x)) eqn:Hc.
    + apply Qltb_true_iff in Hc. constructor; [exact IH|].
      apply insert_asc_forall; [lra | exact Hy].
    + apply Qltb_false_iff in Hc. constructor.
      * constructor; assumption.
      * constructor; [exact Hc|].
        eapply Forall_impl; [|exact Hy]. cbv beta. intros z Hz. lra.
Qed.

Lemma sort_asc_sorted {A : Type} (key : A -> Q) (l : list A) :
  StronglySorted (fun u v => (key u <= key v)%Q) (sort_asc key l).
Proof.
  induction l as [|x xs IH]; simpl; [constructor|].
  apply insert_asc_sorted. exact IH.
Qed.

(** ** The orders kept *)

Lemma jita_or_all_cases (orders : list Order.t) :
  (filter is_jita orders = [] /\ jita_or_all orders = orders)
  \/ (filter is_jita orders <> []
      /\ jita_or_all orders = filter is_jita orders).
Proof.
  unfold jita_or_all. destruct (filter is_jita orders) eqn:E.
  - left. split; reflexivity.
  - right. split; [discriminate | reflexivity].
Qed.

Lemma get_sell_orders_live (fuel : nat) (c : Client) (region_id type_id : Z)
    (orders : list Order.t) :
  use_sample c = false ->
  get_sell_orders fuel c region_id type_id = Some orders ->
  exists fetched,
    fetch_order_pages fuel c region_id type_id 1 [] = Some fetched
    /\ orders = sort_asc Order.price (jita_or_all fetched).
Proof.
  unfold get_sell_orders. intros -> H.
  destruct (fetch_order_pages _ _ _ _ _ _) as [fetched|]; [|discriminate].
  injection H as <-. exists fetched. split; reflexivity.
Qed.

(** X13: the list [get_sell_orders] returns is in non-decreasing price
    order; in sample mode it is empty; with a live client it is a
    reordering of the fetched orders located in Jita when there is at least
    one, and of all the fetched orders otherwise. *)
Theorem get_sell_orders_sorted (fuel : nat) (c : Client)
    (region_id type_id : Z) (orders : list Order.t) :
  get_sell_orders fuel c region_id type_id = Some orders ->
  StronglySorted (fun u v => (Order.price u <= Order.price v)%Q) orders
  /\ (use_sample c = true -> orders = [])
  /\ (use_sample c = false ->
      exists fetched,
        fetch_order_pages fuel c region_id type_id 1 [] = Some fetched
        /\ ((exists o, In o fetched /\ is_jita o = true) ->
            Permutation orders (filter is_jita fetched)
            /\ forall o, In o orders -> In o fetched /\ is_jita o = true)
        /\ ((forall o, In o fetched -> is_jita o = false) ->
            Permutation orders fetched)).
Proof.
  intro H. destruct (use_sample c) eqn:Hs.
  - unfold get_sell_orders in H. rewrite Hs in H. injection H as <-.
    split; [constructor|]. split; [reflexivity | discriminate].
  - destruct (get_sell_orders_live fuel c region_id type_id orders Hs H)
      as (fetched & Hf & ->).
    split; [apply sort_asc_sorted|]. split; [discriminate|].
    intros _. exists fetched. split; [exact Hf|]. split.
    + intros (o & Hin & Hj).
      assert (Hne : filter is_jita fetched <> []).
      { intro E. assert (Hin' : In o (filter is_jita fetched))
          by (apply filter_In; split; assumption).
        rewrite E in Hin'. destruct Hin'. }
      destruct (jita_or_all_cases fetched) as [[E _] | [_ E]];
        [contradiction|].
      rewrite E. split; [apply sort_asc_perm|].
      intros o' Hin'.
      apply (Permutation_in _ (sort_asc_perm Order.price _)) in Hin'.
      apply filter_In in Hin'. exact Hin'.
    + intro Hnone.
      assert (E : filter is_jita fetched = []).
      { apply filter_all_false. exact Hnone. }
      unfold jita_or_all. rewrite E. apply sort_asc_perm.
Qed.

Lemma get_sell_orders_sorted_witness :
  exists orders,
    get_sell_orders 5 demo_client THE_FORGE_REGION_ID 185 = Some orders
    /\ StronglySorted (fun u v => (Order.price u <= Order.price v)%Q) orders.
Proof.
  eexists. split; [vm_compute; reflexivity|].
  apply (get_sell_orders_sorted 5 demo_client THE_FORGE_REGION_ID 185).
  vm_compute. reflexivity.
Defined.

(** ** Pagination *)





(** ** The quote built from the orders and the history *)


Lemma Zsum_from (l : list Z) (acc : Z) :
  fold_left Z.add l acc = acc + Zsum l.
Proof.
  unfold Zsum. revert acc. induction l as [|x xs IH]; intro acc; simpl.
  - lia.
  - rewrite IH, (IH x). lia.
Qed.

Lemma Zsum_cons (x : Z) (l : list Z) : Zsum (x :: l) = x + Zsum l.
Proof. unfold Zsum at 1. simpl. apply Zsum_from. Qed.





Lemma sort_asc_nil_iff {A : Type} (key : A -> Q) (l : list A) :
  sort_asc key l = [] <-> l = [].
Proof.
  split; intro H; [|rewrite H; reflexivity].
  pose proof (sort_asc_perm key l) as Hp. rewrite H in Hp.
  apply Permutation_nil in Hp. exact Hp.
Qed.

Lemma jita_or_all_nil_iff (orders : list Order.t) :
  jita_or_all orders = [] <-> orders = [].
Proof.
  split; intro H; [|rewrite H; reflexivity].
  destruct (jita_or_all_cases orders) as [[_ E] | [Hne E]]; congruence.
Qed.

(** X16: a live client reports "no quote" exactly when no sell order was
    fetched at all; in particular a failed or empty first request gives no
    quote instead of an error, and [analyze_item] then leaves the entry
    out. *)
Theorem no_orders_no_quote (fuel : nat) (c : Client) (type_id : Z)
    (is_base_item : bool) :
  use_sample c = false ->
  (get_market_data fuel c type_id is_base_item = Some None
   <-> fetch_order_pages fuel c THE_FORGE_REGION_ID type_id 1 [] = Some [])
  /\ (rows_of (orders_endpoint c THE_FORGE_REGION_ID type_id 1) = [] ->
      get_market_data (S fuel) c type_id is_base_item = Some None
      /\ forall it other,
           analyze_item it None other = Return None
           /\ analyze_item it other None = Return None).
Proof.
  intro Hs. split.
  - unfold get_market_data, get_sell_orders. rewrite Hs.
    destruct (fetch_order_pages _ _ _ _ _ _) as [fetched|];
      [|split; discriminate].
    destruct (sort_asc Order.price (jita_or_all fetched)) as [|o l] eqn:E.
    + apply (proj1 (sort_asc_nil_iff _ _)) in E.
      apply (proj1 (jita_or_all_nil_iff _)) in E.
      rewrite E. split; reflexivity.
    + split; [discriminate|]. intro H. injection H as ->. discriminate E.
  - intro Hrows. split.
    + unfold get_market_data, get_sell_orders. rewrite Hs.
      cbn [fetch_order_pages]. unfold request_orders. rewrite Hs.
      destruct (orders_endpoint c THE_FORGE_REGION_ID type_id 1)
        as [[|o data]|]; try reflexivity.
      discriminate Hrows.
    + intros it other. split; [reflexivity|].
      unfold analyze_item. destruct other; reflexivity.
Qed.

Lemma no_orders_no_quote_witness :
  get_market_data 1
    {| use_sample := false;
       orders_endpoint := fun _ _ _ => None;
       history_endpoint := fun _ _ => None |} 185 true = Some None.
Proof.
  apply (proj2 (no_orders_no_quote 0
           {| use_sample := false;
              orders_endpoint := fun _ _ _ => None;
              history_endpoint := fun _ _ => None |} 185 true eq_refl)).
  reflexivity.
Defined.

(** ** Daily volume from the history *)

Lemma recent_history_suffix (history : list History.t) :
  exists old, history = old ++ recent_history history.
Proof.
  unfold recent_history.
  destruct (30 <=? Z.of_nat (List.length history)).
  - exists (firstn (List.length history - 30) history).
    symmetry. apply firstn_skipn.
  - exists []. reflexivity.
Qed.

Lemma recent_history_nonempty (history : list History.t) :
  history <> [] -> recent_history history <> [].
Proof.
  intro Hne. unfold recent_history.
  destruct (30 <=? Z.of_nat (List.length history)) eqn:E; [|exact Hne].
  apply Z.leb_le in E. intro H.
  apply (f_equal (@List.length _)) in H. rewrite length_skipn in H.
  simpl in H. lia.
Qed.

Lemma Zsum_bounds (l : list Z) (lo hi : Z) :
  Forall (fun x => lo <= x <= hi) l ->
  Z.of_nat (List.length l) * lo <= Zsum l
  /\ Zsum l <= Z.of_nat (List.length l) * hi.
Proof.
  induction 1 as [|x xs Hx _ IH].
  - unfold Zsum. simpl. lia.
  - rewrite Zsum_cons. cbn [List.length]. lia.
Qed.

(** X17: the daily volume of a live quote is 0 without history; otherwise
    it is the mean of the trailing 30 history rows when there are at least
    30 (older rows do not count), and of all rows when there are fewer; so
    it lies between the smallest and the largest volume of the history. *)
Theorem daily_volume_is_trailing_mean :
  daily_volume_of [] = 0%Q
  /\ (forall old recent,
        List.length recent = 30%nat ->
        (daily_volume_of (old ++ recent)
         == inject_Z (Zsum (map History.volume recent)) / 30)%Q)
  /\ (forall history,
        history <> [] -> (List.length history < 30)%nat ->
        daily_volume_of history
        = (inject_Z (Zsum (map History.volume history))
           / inject_Z (Z.of_nat (List.length history)))%Q)
  /\ (forall history lo hi,
        history <> [] ->
        Forall (fun h => lo <= History.volume h <= hi) history ->
        (inject_Z lo <= daily_volume_of history)%Q
        /\ (daily_volume_of history <= inject_Z hi)%Q).
Proof.
  split; [reflexivity|]. split; [|split].
  - intros old recent Hlen. unfold daily_volume_of.
    destruct (old ++ recent) as [|h t] eqn:E.
    { apply (f_equal (@List.length _)) in E. rewrite length_app in E.
      simpl in E. lia. }
    rewrite <- E. cbv zeta.
    assert (Hrec : recent_history (old ++ recent) = recent).
    { unfold recent_history. rewrite length_app, Hlen.
      replace (30 <=? Z.of_nat (List.length old + 30)) with true
        by (symmetry; apply Z.leb_le; lia).
      replace (List.length old + 30 - 30)%nat with (List.length old) by lia.
      rewrite skipn_app, skipn_all, Nat.sub_diag. reflexivity. }
    rewrite Hrec, Hlen. reflexivity.
  - intros history Hne Hlen. unfold daily_volume_of, recent_history.
    destruct history as [|h t]; [contradiction|].
    replace (30 <=? Z.of_nat (List.length (h :: t))) with false
      by (symmetry; apply Z.leb_gt; lia).
    reflexivity.
  - intros history lo hi Hne Hall.
    destruct (recent_history_suffix history) as [old Eold].
    pose proof (recent_history_nonempty history Hne) as Hrne.
    assert (Hrec : Forall (fun h => lo <= History.volume h <= hi)
                     (recent_history history)).
    { rewrite Eold in Hall. apply Forall_app in Hall. apply Hall. }
    assert (Hb : Forall (fun x => lo <= x <= hi)
                   (map History.volume (recent_history history))).
    { apply Forall_forall. intros x Hx. apply in_map_iff in Hx.
      destruct Hx as (h & <- & Hin). rewrite Forall_forall in Hrec.
      apply Hrec. exact Hin. }
    apply Zsum_bounds in Hb. rewrite length_map in Hb.
    destruct Hb as [Hlo Hhi].
    unfold daily_volume_of. destruct history as [|h t]; [contradiction|].
    cbv zeta.
    set (recent := recent_history (h :: t)) in *.
    assert (Hn : 0 < Z.of_nat (List.length recent)).
    { destruct recent; [contradiction | simpl; lia]. }
    pose proof (inject_Z_pos _ Hn) as Hnq.
    split.
    + apply Qle_shift_div_l; [exact Hnq|].
      rewrite <- inject_Z_mult, <- Zle_Qle. lia.
    + apply Qle_shift_div_r; [exact Hnq|].
      rewrite <- inject_Z_mult, <- Zle_Qle. lia.
Qed.

Lemma daily_volume_is_trailing_mean_witness :
  (inject_Z 10 <= daily_volume_of
                    [ {| History.volume := 10 |}; {| History.volume := 20 |} ])%Q.
Proof.
  refine (proj1 (proj2 (proj2 (proj2 daily_volume_is_trailing_mean))
                   [ {| History.volume := 10 |}; {| History.volume := 20 |} ]
                   10 20 _ _)).
  - discriminate.
  - repeat constructor; cbn; lia.
Defined.

(** * The report *)






Lemma truediv_raises_iff (x y : Q) :
  truediv x y = Raise ZeroDivisionError <-> (y == 0)%Q.
Proof.
  unfold truediv. destruct (Qeq_bool y 0) eqn:E.
  - apply Qeq_bool_iff in E. split; auto.
  - apply Qeq_bool_false_iff in E. split; [discriminate | contradiction].
Qed.

Lemma generate_report_inv (purchases : list purchase) (lp : Z) (cargo : Q)
    (r : Report.summary) :
  generate_report purchases lp cargo = Return r ->
  lp <> 0 /\ ~ (cargo == 0)%Q
  /\ Report.sums r = Report.accumulate purchases
  /\ Report.remaining r
     = lp - Report.total_lp_used (Report.accumulate purchases)
  /\ Report.expected_profit r
     = (Report.total_revenue (Report.accumulate purchases)
        - Report.total_base_cost (Report.accumulate purchases)
        - inject_Z (Report.total_isk_cost (Report.accumulate purchases)))%Q
  /\ Report.lp_used_percent r
     = (inject_Z (Report.total_lp_used (Report.accumulate purchases))
        / inject_Z lp * 100)%Q
  /\ Report.volume_percent r
     = (Report.total_volume (Report.accumulate purchases) / cargo * 100)%Q
  /\ Report.effective_isk_lp r
     = (if 0 <? Report.total_lp_used (Report.accumulate purchases)
        then Some (Report.expected_profit r
                   / inject_Z (Report.total_lp_used
                                 (Report.accumulate purchases)))%Q
        else None).
Proof.
  unfold generate_report. cbv zeta. unfold truediv at 1. intro H.
  destruct (Qeq_bool (inject_Z lp) 0) eqn:Hl; [discriminate|].
  cbn [bind] in H.
  assert (Hl' : lp <> 0).
  { intro E. apply inject_Z_zero_iff in E. congruence. }
  destruct (0 <? Report.total_lp_used (Report.accumulate purchases)) eqn:Hu.
  - unfold truediv in H.
    destruct (Qeq_bool
                (inject_Z (Report.total_lp_used (Report.accumulate purchases)))
                0); cbn [bind] in H; [discriminate|].
    destruct (Qeq_bool cargo 0) eqn:Hc; cbn [bind] in H; [discriminate|].
    injection H as <-.
    cbn [Report.sums Report.remaining Report.expected_profit
         Report.lp_used_percent Report.volume_percent
         Report.effective_isk_lp].
    apply Qeq_bool_false_iff in Hc. repeat split; auto.
  - unfold truediv in H. cbn [bind] in H.
    destruct (Qeq_bool cargo 0) eqn:Hc; cbn [bind] in H; [discriminate|].
    injection H as <-.
    cbn [Report.sums Report.remaining Report.expected_profit
         Report.lp_used_percent Report.volume_percent
         Report.effective_isk_lp].
    apply Qeq_bool_false_iff in Hc. repeat split; auto.
Qed.

Lemma generate_report_total (purchases : list purchase) (lp : Z) (cargo : Q) :
  lp <> 0 -> ~ (cargo == 0)%Q ->
  exists r, generate_report purchases lp cargo = Return r.
Proof.
  intros Hl Hc. unfold generate_report. cbv zeta.
  rewrite truediv_inject_Z by exact Hl. cbn [bind].
  destruct (0 <? Report.total_lp_used (Report.accumulate purchases)) eqn:Hu.
  - apply Z.ltb_lt in Hu. rewrite truediv_inject_Z by lia. cbn [bind].
    unfold truediv.
    replace (Qeq_bool cargo 0) with false
      by (symmetry; apply Qeq_bool_false_iff; exact Hc).
    eexists; reflexivity.
  - cbn [bind]. unfold truediv.
    replace (Qeq_bool cargo 0) with false
      by (symmetry; apply Qeq_bool_false_iff; exact Hc).
    eexists; reflexivity.
Qed.

(** X19: [generate_report] raises (ZeroDivisionError, from one of its two
    percentage lines) exactly when the available LP is 0 or the cargo
    capacity is 0; the effective ISK/LP line never raises, being computed
    only when some LP was used. *)
Theorem generate_report_raises_iff (purchases : list purchase) (lp : Z)
    (cargo : Q) :
  generate_report purchases lp cargo = Raise ZeroDivisionError
  <-> lp = 0 \/ (cargo == 0)%Q.
Proof.
  split.
  - intro H. destruct (Z.eq_dec lp 0) as [|Hl]; [left; assumption|].
    destruct (Qeq_dec cargo 0) as [|Hc]; [right; assumption|].
    destruct (generate_report_total purchases lp cargo Hl Hc) as [r Hr].
    congruence.
  - intro H. destruct (generate_report purchases lp cargo) as [r|[]] eqn:E;
      [|reflexivity].
    apply generate_report_inv in E. destruct E as (Hl & Hc & _).
    destruct H; contradiction.
Qed.







(** * [main] *)

Lemma str_in_iff (s : string) (l : list string) :
  str_in s l = true <-> In s l.
Proof.
  unfold str_in. rewrite existsb_exists. split.
  - intros (x & Hin & E). apply String.eqb_eq in E. subst x. exact Hin.
  - intro Hin. exists s. split; [exact Hin | apply String.eqb_refl].
Qed.

Lemma main_unfold (float_pow : Q -> Q -> Q) (fuel : nat) (esi : ESIClient)
    (lp : Z) (cargo max_days min_liquidity : Q)
    (categories : option (list string)) (no_diversify : bool)
    (batch_days lp_density : Q) :
  main float_pow fuel esi lp cargo max_days min_liquidity categories
    no_diversify batch_days lp_density
  = match filter (fun c => negb (str_in c valid_categories))
            (chosen_categories categories) with
    | _ :: _ => Some (Return (Exit 1))
    | [] =>
      match analyze_items (catalog_for categories) esi with
      | Raise e => Some (Raise e)
      | Return [] => Some (Return (Exit 1))
      | Return analyses =>
        match optimize_purchases float_pow fuel analyses lp cargo
                min_liquidity max_days (negb no_diversify) batch_days
                lp_density with
        | None => None
        | Some (Raise e) => Some (Raise e)
        | Some (Return []) => Some (Return (Exit 1))
        | Some (Return purchases) =>
          match generate_report purchases lp cargo with
          | Raise e => Some (Raise e)
          | Return report =>
            Some (Return (Completed purchases report
                            (generate_multibuy purchases)))
          end
        end
      end
    end.
Proof.
  unfold main, catalog_for, chosen_categories.
  destruct categories as [[|c cs]|]; reflexivity.
Qed.





(** X22: a category that is not one of the five valid ones makes [main]
    exit with status 1 whatever the market data, budgets and options are,
    before any analysis or allocation (no fuel is needed); and whenever
    [main] exits early, its status is 1. *)
Theorem main_rejects_invalid_category (float_pow : Q -> Q -> Q) (fuel : nat)
    (esi : ESIClient) (lp : Z) (cargo max_days min_liquidity : Q)
    (categories : option (list string)) (no_diversify : bool)
    (batch_days lp_density : Q) :
  ((exists c, In c (chosen_categories categories)
              /\ ~ In c valid_categories) ->
   main float_pow fuel esi lp cargo max_days min_liquidity categories
     no_diversify batch_days lp_density = Some (Return (Exit 1)))
  /\ (forall code,
        main float_pow fuel esi lp cargo max_days min_liquidity categories
          no_diversify batch_days lp_density = Some (Return (Exit code)) ->
        code = 1).
Proof.
  split.
  - intros (c & Hc & Hbad). rewrite main_unfold.
    assert (Hin : In c (filter (fun c => negb (str_in c valid_categories))
                          (chosen_categories categories))).
    { apply filter_In. split; [exact Hc|].
      destruct (str_in c valid_categories) eqn:E; [|reflexivity].
      apply str_in_iff in E. contradiction. }
    destruct (filter _ (chosen_categories categories));
      [destruct Hin | reflexivity].
  - intros code. rewrite main_unfold.
    destruct (filter _ (chosen_categories categories));
      [|intro H; injection H as <-; reflexivity].
    destruct (analyze_items (catalog_for categories) esi) as [analyses|];
      [|discriminate].
    destruct analyses as [|a0 analyses];
      [intro H; injection H as <-; reflexivity|].
    destruct (optimize_purchases _ _ _ _ _ _ _ _ _ _) as [[plan|]|];
      try discriminate.
    destruct plan as [|p plan]; [intro H; injection H as <-; reflexivity|].
    destruct (generate_report (p :: plan) lp cargo); discriminate.
Qed.

Lemma main_rejects_invalid_category_witness :
  main (fun x _ => x) 0 sample_get_market_data 100000 5000 14 (3 # 10)
    (Some ["ammo_s"%string; "rockets"%string]) false 4 (7 # 10)
  = Some (Return (Exit 1)).
Proof.
  apply (proj1 (main_rejects_invalid_category (fun x _ => x) 0
                  sample_get_market_data 100000 5000 14 (3 # 10)
                  (Some ["ammo_s"%string; "rockets"%string]) false 4
                  (7 # 10))).
  exists "rockets"%string. split; [right; left; reflexivity|].
  intro H. cbn in H.
  repeat (destruct H as [H | H]; [discriminate H|]). exact H.
Defined.










(** * The multi-buy text *)

Lemma str_of_int_reads_back (n : Z) :
  option_map Z.of_int (NilZero.int_of_string (str_of_int n)) = Some n.
Proof.
  unfold str_of_int. rewrite NilZero.isi.
  - cbn [option_map]. rewrite DecimalZ.of_to. reflexivity.
  - destruct n as [|p|p]; cbn; try discriminate.
    intro H. injection H as H. exact (Unsigned.to_uint_nonnil p H).
  - destruct n as [|p|p]; cbn; try discriminate.
    intro H. injection H as H. exact (Unsigned.to_uint_nonnil p H).
Qed.

(** X25: a line of the multi-buy text names the base (input) item of the
    purchase, followed by " x" and the decimal numeral of quantity x
    units-per-lot, a numeral that reads back as exactly that number; the
    text of an empty plan is empty, and the text of a plan with further
    purchases is its first line, a newline, and the text of the rest. *)
Theorem multibuy_lines_read_back :
  (forall a q,
     exists digits,
       multibuy_line (a, q)
       = (base_name (item a) ++ " x" ++ digits)%string
       /\ option_map Z.of_int (NilZero.int_of_string digits)
          = Some (q * units_per_purchase (item a)))
  /\ generate_multibuy [] = EmptyString
  /\ (forall p, generate_multibuy [p] = multibuy_line p)
  /\ (forall p p' rest,
        generate_multibuy (p :: p' :: rest)
        = (multibuy_line p ++ newline ++ generate_multibuy (p' :: rest))%string).
Proof.
  split; [|split; [|split]].
  - intros a q. exists (str_of_int (q * units_per_purchase (item a))).
    split; [reflexivity | apply str_of_int_reads_back].
  - reflexivity.
  - intro p. reflexivity.
  - intros p p' rest. reflexivity.
Qed.
